(** * tt-media-player: the search cache, the resolvers and the command loop

    A shallow embedding of [tt_media_player.py].

    - A Python [str] is a Stdlib [string]: the sequence of bytes of its
      UTF-8 encoding, so [str.encode()] is the identity on the
      representation.  [str.lower] follows Python on ASCII text and is left
      to the environment on anything else; [strip], [split] and [int] are
      modelled on ASCII text.
    - A Python [float] is a binary64 primitive float.
    - Python values that come back from the collaborators (search results,
      yt-dlp info dictionaries) are terms of [pyval].
    - Functions with effects live in the monad [M]: a world is threaded
      through and a Python exception is the outcome [Raise].
    - Everything outside the program (clock, yt_search, yt-dlp, the file
      system's refusals) is the type class [Env]: each answer may depend on
      how many calls were made before it, so a collaborator may answer the
      same question differently over time. *)

From Stdlib Require Import ZArith String Ascii List Bool Floats.
From stdpp Require Import gmap strings list.

Set Warnings "-register-all".

Open Scope string_scope.
Open Scope Z_scope.

(** ** Text *)

Module Text.

Definition is_ascii (c : ascii) : bool := (nat_of_ascii c <? 128)%nat.

Definition is_upper (c : ascii) : bool :=
  ((65 <=? nat_of_ascii c) && (nat_of_ascii c <=? 90))%nat.

Definition lower_char (c : ascii) : ascii :=
  if is_upper c then ascii_of_nat (nat_of_ascii c + 32) else c.

Fixpoint all_ascii (s : string) : bool :=
  match s with
  | EmptyString => true
  | String c s' => is_ascii c && all_ascii s'
  end.

Fixpoint map_chars (f : ascii -> ascii) (s : string) : string :=
  match s with
  | EmptyString => EmptyString
  | String c s' => String (f c) (map_chars f s')
  end.

(** [s.startswith(p)] *)
Definition startswith (s p : string) : bool := String.prefix p s.

(** [s.endswith(suf)] *)
Fixpoint endswith (s suf : string) : bool :=
  String.eqb s suf ||
  match s with
  | EmptyString => false
  | String _ s' => endswith s' suf
  end.

(** [sub in s] on two strings *)
Fixpoint contains (sub s : string) : bool :=
  String.prefix sub s ||
  match s with
  | EmptyString => false
  | String _ s' => contains sub s'
  end.

(** The ASCII characters on which [str.isspace] holds. *)
Definition is_space (c : ascii) : bool :=
  let n := nat_of_ascii c in
  ((9 <=? n) && (n <=? 13) || (28 <=? n) && (n <=? 32))%nat.

Fixpoint lstrip (s : string) : string :=
  match s with
  | String c s' => if is_space c then lstrip s' else s
  | EmptyString => EmptyString
  end.

Fixpoint rstrip (s : string) : string :=
  match s with
  | EmptyString => EmptyString
  | String c s' =>
      match rstrip s' with
      | EmptyString => if is_space c then EmptyString else String c EmptyString
      | r => String c r
      end
  end.

(** [s.strip()] *)
Definition strip (s : string) : string := rstrip (lstrip s).

(** [s.split()]: the maximal runs of characters that are not white space.
    [cur] is the run being read, in reverse. *)
Fixpoint split_from (cur : list ascii) (s : string) : list string :=
  let flush := match cur with
               | [] => []
               | _ => [string_of_list_ascii (rev cur)]
               end in
  match s with
  | EmptyString => flush
  | String c s' =>
      if is_space c then flush ++ split_from [] s'
      else split_from (c :: cur) s'
  end.

Definition split (s : string) : list string := split_from [] s.

Definition is_digit (c : ascii) : bool :=
  ((48 <=? nat_of_ascii c) && (nat_of_ascii c <=? 57))%nat.

Definition digit_val (c : ascii) : Z := Z.of_nat (nat_of_ascii c) - 48.

(** The digits of an [int] literal as [int()] reads it: one underscore is
    allowed between two digits.  [acc] is the value read so far and
    [after_digit] says whether the previous character was a digit. *)
Fixpoint parse_digits (acc : Z) (after_digit : bool) (s : string) : option Z :=
  match s with
  | EmptyString => if after_digit then Some acc else None
  | String c s' =>
      if is_digit c then parse_digits (10 * acc + digit_val c) true s'
      else if Ascii.eqb c "_"%char && after_digit then parse_digits acc false s'
      else None
  end.

(** [int(s)] on a token without white space; [None] is [ValueError]. *)
Definition parse_int (s : string) : option Z :=
  match s with
  | String "-"%char s' => Z.opp <$> parse_digits 0 false s'
  | String "+"%char s' => parse_digits 0 false s'
  | _ => parse_digits 0 false s
  end.

End Text.

(** ** MD5 (RFC 1321), as [hashlib.md5] computes it *)

Module MD5.

Definition mask32 (x : Z) : Z := Z.land x 0xffffffff.

Definition rotl32 (x : Z) (c : Z) : Z :=
  mask32 (Z.lor (Z.shiftl x c) (Z.shiftr x (32 - c))).

Definition not32 (x : Z) : Z := Z.lxor x 0xffffffff.

Definition K : list Z :=
  [ 0xd76aa478; 0xe8c7b756; 0x242070db; 0xc1bdceee;
    0xf57c0faf; 0x4787c62a; 0xa8304613; 0xfd469501;
    0x698098d8; 0x8b44f7af; 0xffff5bb1; 0x895cd7be;
    0x6b901122; 0xfd987193; 0xa679438e; 0x49b40821;
    0xf61e2562; 0xc040b340; 0x265e5a51; 0xe9b6c7aa;
    0xd62f105d; 0x02441453; 0xd8a1e681; 0xe7d3fbc8;
    0x21e1cde6; 0xc33707d6; 0xf4d50d87; 0x455a14ed;
    0xa9e3e905; 0xfcefa3f8; 0x676f02d9; 0x8d2a4c8a;
    0xfffa3942; 0x8771f681; 0x6d9d6122; 0xfde5380c;
    0xa4beea44; 0x4bdecfa9; 0xf6bb4b60; 0xbebfbc70;
    0x289b7ec6; 0xeaa127fa; 0xd4ef3085; 0x04881d05;
    0xd9d4d039; 0xe6db99e5; 0x1fa27cf8; 0xc4ac5665;
    0xf4292244; 0x432aff97; 0xab9423a7; 0xfc93a039;
    0x655b59c3; 0x8f0ccc92; 0xffeff47d; 0x85845dd1;
    0x6fa87e4f; 0xfe2ce6e0; 0xa3014314; 0x4e0811a1;
    0xf7537e82; 0xbd3af235; 0x2ad7d2bb; 0xeb86d391 ].

Definition S : list Z :=
  [ 7; 12; 17; 22; 7; 12; 17; 22; 7; 12; 17; 22; 7; 12; 17; 22;
    5; 9; 14; 20; 5; 9; 14; 20; 5; 9; 14; 20; 5; 9; 14; 20;
    4; 11; 16; 23; 4; 11; 16; 23; 4; 11; 16; 23; 4; 11; 16; 23;
    6; 10; 15; 21; 6; 10; 15; 21; 6; 10; 15; 21; 6; 10; 15; 21 ].

Record state := State { sa : Z; sb : Z; sc : Z; sd : Z }.

Definition init : state :=
  State 0x67452301 0xefcdab89 0x98badcfe 0x10325476.

(** The little-endian bytes of a 32-bit word and back. *)
Definition word_bytes (w : Z) : list Z :=
  [ Z.land w 255; Z.land (Z.shiftr w 8) 255;
    Z.land (Z.shiftr w 16) 255; Z.land (Z.shiftr w 24) 255 ].

Fixpoint words_of (bytes : list Z) : list Z :=
  match bytes with
  | b0 :: b1 :: b2 :: b3 :: rest =>
      (b0 + Z.shiftl b1 8 + Z.shiftl b2 16 + Z.shiftl b3 24) :: words_of rest
  | _ => []
  end.

(** Padding: one 0x80 byte, zeros up to 56 modulo 64, then the length in
    bits as 8 little-endian bytes. *)
Definition pad (msg : list Z) : list Z :=
  let n := Z.of_nat (length msg) in
  let zeros := Z.to_nat ((55 - n) mod 64) in
  let bits := (8 * n) mod 2 ^ 64 in
  msg ++ [128] ++ repeat 0 zeros
      ++ word_bytes (Z.land bits 0xffffffff)
      ++ word_bytes (Z.shiftr bits 32).

(** Round [i] of the compression function on the block [m]. *)
Definition round (m : list Z) (st : state) (i : nat) : state :=
  let '(State a b c d) := st in
  let j := Z.of_nat i in
  let '(f, g) :=
    if j <? 16 then (Z.lor (Z.land b c) (Z.land (not32 b) d), j)
    else if j <? 32 then
      (Z.lor (Z.land d b) (Z.land (not32 d) c), (5 * j + 1) mod 16)
    else if j <? 48 then (Z.lxor (Z.lxor b c) d, (3 * j + 5) mod 16)
    else (Z.lxor c (Z.lor b (not32 d)), (7 * j) mod 16) in
  let f' := mask32 (f + a + nth i K 0 + nth (Z.to_nat g) m 0) in
  State d (mask32 (b + rotl32 f' (nth i S 0))) b c.

Definition compress (st : state) (m : list Z) : state :=
  let st' := fold_left (round m) (seq 0 64) st in
  State (mask32 (sa st + sa st')) (mask32 (sb st + sb st'))
        (mask32 (sc st + sc st')) (mask32 (sd st + sd st')).

(** The 16-word blocks of a padded message; [n] bounds their number. *)
Fixpoint blocks (n : nat) (ws : list Z) : list (list Z) :=
  match n, ws with
  | O, _ | _, [] => []
  | Datatypes.S n', _ => firstn 16 ws :: blocks n' (skipn 16 ws)
  end.

Definition final_state (msg : list Z) : state :=
  let ws := words_of (pad msg) in
  fold_left compress (blocks (length ws) ws) init.

Definition hex_digit (n : Z) : ascii :=
  if n <? 10 then ascii_of_nat (Z.to_nat (48 + n))
  else ascii_of_nat (Z.to_nat (87 + n)).

Definition hex_byte (b : Z) : string :=
  String (hex_digit (Z.shiftr b 4)) (String (hex_digit (Z.land b 15)) "").

Definition hex_word (w : Z) : string :=
  match word_bytes w with
  | [b0; b1; b2; b3] => hex_byte b0 ++ hex_byte b1 ++ hex_byte b2 ++ hex_byte b3
  | _ => ""
  end.

(** [hashlib.md5(data).hexdigest()] *)
Definition hexdigest (data : list Z) : string :=
  let st := final_state data in
  hex_word (sa st) ++ hex_word (sb st) ++ hex_word (sc st) ++ hex_word (sd st).

Definition bytes_of (s : string) : list Z :=
  map (fun c => Z.of_nat (nat_of_ascii c)) (list_ascii_of_string s).

End MD5.

Example md5_empty : MD5.hexdigest (MD5.bytes_of "") = "d41d8cd98f00b204e9800998ecf8427e".
Proof. vm_compute. reflexivity. Qed.

Example md5_abc : MD5.hexdigest (MD5.bytes_of "abc") = "900150983cd24fb0d6963f7d28e17f72".
Proof. vm_compute. reflexivity. Qed.

Example md5_lofi : MD5.hexdigest (MD5.bytes_of "lofi beats") = "09bca9f5c15d7c8a0fd505fe702e189a".
Proof. vm_compute. reflexivity. Qed.

Example md5_two_blocks :
  MD5.hexdigest (MD5.bytes_of "The quick brown fox jumps over the lazy dog, twice over and again, and again.")
  = "76be5b5674efaf5c156939cceaf3090d".
Proof. vm_compute. reflexivity. Qed.

Example md5_56 :
  MD5.hexdigest (repeat 97 56) = "3b0c8ac703f828b04c6c197006d17218".
Proof. vm_compute. reflexivity. Qed.

Example split_volume : Text.split "/volume  150 x" = ["/volume"; "150"; "x"].
Proof. reflexivity. Qed.

Example strip_ex : Text.strip "  /Volume 15  " = "/Volume 15".
Proof. reflexivity. Qed.

Example parse_int_ex :
  (Text.parse_int "150", Text.parse_int "-5", Text.parse_int "1_0", Text.parse_int "1__0",
   Text.parse_int "abc", Text.parse_int "", Text.parse_int "+07")
  = (Some 150, Some (-5), Some 10, None, None, None, Some 7).
Proof. reflexivity. Qed.

(** ** Python values, exceptions and outcomes *)

Inductive pyval :=
| VNone
| VBool (b : bool)
| VInt (n : Z)
| VFloat (x : float)
| VStr (s : string)
| VList (items : list pyval)
| VDict (entries : list (string * pyval)).

Inductive exn :=
| NameError (name : string)
| KeyError (key : string)
| IndexError
| TypeError
| AttributeError
| ValueError
| OSError
| UnpicklingError
| PicklingError
| ImportError (module : string)
| EOFError
| KeyboardInterrupt
| CollaboratorError (msg : string).

(** [except Exception] catches everything but [KeyboardInterrupt] here; a
    bare [except:] catches everything. *)
Definition is_Exception (e : exn) : bool :=
  match e with
  | KeyboardInterrupt => false
  | _ => true
  end.

Inductive outcome (A : Type) :=
| Ret (a : A)
| Raise (e : exn).
Arguments Ret {A} a.
Arguments Raise {A} e.

Definition obind {A B} (m : outcome A) (k : A -> outcome B) : outcome B :=
  match m with
  | Ret a => k a
  | Raise e => Raise e
  end.

Notation "'let+' x ':=' m 'in' k" := (obind m (fun x => k))
  (at level 10, x name, m at level 100, k at level 200).

Module Py.

(** Truth value of [v], as [if v:] tests it. *)
Definition truthy (v : pyval) : bool :=
  match v with
  | VNone => false
  | VBool b => b
  | VInt n => negb (n =? 0)
  | VFloat x => negb (PrimFloat.eqb x 0%float)
  | VStr s => negb (String.eqb s "")
  | VList l => match l with [] => false | _ => true end
  | VDict d => match d with [] => false | _ => true end
  end.

Fixpoint lookup (d : list (string * pyval)) (k : string) : option pyval :=
  match d with
  | [] => None
  | (k', v) :: d' => if String.eqb k' k then Some v else lookup d' k
  end.

(** [v[k]] for a string key [k]. *)
Definition getitem (v : pyval) (k : string) : outcome pyval :=
  match v with
  | VDict d => match lookup d k with
               | Some x => Ret x
               | None => Raise (KeyError k)
               end
  | _ => Raise TypeError
  end.

(** [v[0]]; the first item of a [str] is a [str] again (here of one
    byte), on which every later subscript by a key raises. *)
Definition first (v : pyval) : outcome pyval :=
  match v with
  | VList (x :: _) => Ret x
  | VList [] => Raise IndexError
  | VStr (String c _) => Ret (VStr (String c ""))
  | VStr EmptyString => Raise IndexError
  | VDict _ => Raise (KeyError "0")
  | _ => Raise TypeError
  end.

(** [v.get(k, default)] *)
Definition get (v : pyval) (k : string) (default : pyval) : outcome pyval :=
  match v with
  | VDict d => Ret (match lookup d k with Some x => x | None => default end)
  | _ => Raise AttributeError
  end.

(** [v != s] for a string literal [s]. *)
Definition ne_str (v : pyval) (s : string) : bool :=
  match v with
  | VStr s' => negb (String.eqb s' s)
  | _ => true
  end.

(** [sub in v] for a string literal [sub]. *)
Definition contains (sub : string) (v : pyval) : outcome bool :=
  match v with
  | VStr s => Ret (Text.contains sub s)
  | VList l => Ret (existsb (fun x => negb (ne_str x sub)) l)
  | VDict d => Ret (match lookup d sub with Some _ => true | None => false end)
  | _ => Raise TypeError
  end.

(** The items a [for] loop over [v] visits.  The items of a [str] are its
    characters; here they are [str] values of one byte each, and every
    operation the program applies to an item raises on any [str]. *)
Definition iter (v : pyval) : outcome (list pyval) :=
  match v with
  | VList l => Ret l
  | VStr s => Ret (map (fun c => VStr (String c "")) (list_ascii_of_string s))
  | VDict d => Ret (map (fun kv => VStr (fst kv)) d)
  | _ => Raise TypeError
  end.

End Py.

(** ** The world *)

(** What [cached_search] pickles: [{'timestamp': ..., 'results': ...}]. *)
Record cache_data := CacheData { timestamp : float; results : pyval }.

(** A file of the cache directory: one on which [open] or [pickle.load]
    raises, or the pickle of a [cache_data]. *)
Inductive file :=
| Unreadable
| Pickled (d : cache_data).

Inductive ydl_opts :=
| ydl_opts_async      (* format bestaudio[acodec=opus]/bestaudio/best, noplaylist, 3 retries *)
| ydl_opts_original.  (* default_search ytsearch1, format bestaudio/best, 2 retries *)

Inductive call :=
| CallSearch (query : string) (max_results : Z)
| CallExtractInfo (opts : ydl_opts) (url : string).

Inductive mpv_command :=
| Loadfile (url : pyval) (mode : string)
| Stop.

Inductive message :=
| MsgBanner
| MsgTypeHelp
| MsgPlaying (search_time : float) (title : pyval)
| MsgCacheCleared
| MsgHelp
| MsgFastMode (on : bool)
| MsgVolumeSet (vol : Z)
| MsgVolumeUsage
| MsgPaused
| MsgResumed
| MsgStopped
| MsgUnknownCommand
| MsgExiting
| MsgError (e : exn)
| MsgPlayingFallback (title : pyval)
| MsgTryAnother.

(** A job handed to [executor.submit]. *)
Inductive job := Job (target : string) (arg : pyval).

Record Player := mkPlayer {
  volume : Z;
  pause : bool;
  commands : list mpv_command;   (* [player.command(...)], oldest first *)
  terminated : bool
}.

Record Executor := mkExecutor {
  max_workers : Z;
  submitted : list job;
  shut_down : bool
}.

Record World := mkWorld {
  tick : nat;                       (* calls to the outside made so far *)
  cache_dir : gmap string file;     (* the files of CACHE_DIR, by name *)
  globals : gset string;            (* names bound in the module *)
  player : Player;
  executor : Executor;
  stdout : list message;            (* what was printed, oldest first *)
  calls : list call;                (* collaborator calls, oldest first *)
  monitors : nat                    (* status_monitor threads started *)
}.

Inductive dump_result := DumpOk | OpenFails | DumpFails.

(** The outside of the program.  The [_at] fields take the number of
    outside calls made before this one. *)
Class Env := {
  unicode_lower : string -> string;      (* str.lower on text that is not ASCII *)
  format_value : pyval -> string;        (* format() of a value that is not a str *)
  time_at : nat -> float;                (* time.time() *)
  search_at : nat -> string -> Z -> outcome pyval;
                                         (* yt_search.search(query, max_results=n) *)
  extract_info_at : nat -> ydl_opts -> string -> outcome pyval;
                                         (* YoutubeDL(opts).extract_info(url, download=False) *)
  dump_at : nat -> string -> dump_result;(* open(file, 'wb') and pickle.dump *)
  remove_at : nat -> string -> bool;     (* whether os.remove(file) succeeds *)
  import_ok : string -> bool;            (* whether a module can be imported *)
  environ_has_path : bool;               (* whether os.environ has PATH *)
  makedirs_ok : bool;                    (* whether os.makedirs succeeds *)
  name_is_main : bool                    (* whether __name__ is "__main__" *)
}.

(** ** The monad of effects *)

Definition M (A : Type) : Type := World -> outcome A * World.

Definition ret {A} (a : A) : M A := fun w => (Ret a, w).

Definition raise {A} (e : exn) : M A := fun w => (Raise e, w).

Definition bind {A B} (m : M A) (k : A -> M B) : M B :=
  fun w => match m w with
           | (Ret a, w') => k a w'
           | (Raise e, w') => (Raise e, w')
           end.

(** [try: m except: h] (and [except Exception as e] when [h] re-raises the
    rest): what [m] did to the world before it raised stays done. *)
Definition try_except {A} (m : M A) (h : exn -> M A) : M A :=
  fun w => match m w with
           | (Ret a, w') => (Ret a, w')
           | (Raise e, w') => h e w'
           end.

Definition lift {A} (o : outcome A) : M A := fun w => (o, w).

Notation "'let*' x ':=' m 'in' k" := (bind m (fun x => k))
  (at level 10, x name, m at level 100, k at level 200).
Notation "m1 ';;' m2" := (bind m1 (fun _ => m2))
  (at level 100, m2 at level 200, right associativity, only parsing).

Definition set_tick (n : nat) (w : World) : World :=
  mkWorld n (cache_dir w) (globals w) (player w) (executor w) (stdout w) (calls w) (monitors w).
Definition set_cache_dir (d : gmap string file) (w : World) : World :=
  mkWorld (tick w) d (globals w) (player w) (executor w) (stdout w) (calls w) (monitors w).
Definition set_globals (g : gset string) (w : World) : World :=
  mkWorld (tick w) (cache_dir w) g (player w) (executor w) (stdout w) (calls w) (monitors w).
Definition set_player (p : Player) (w : World) : World :=
  mkWorld (tick w) (cache_dir w) (globals w) p (executor w) (stdout w) (calls w) (monitors w).
Definition set_executor (x : Executor) (w : World) : World :=
  mkWorld (tick w) (cache_dir w) (globals w) (player w) x (stdout w) (calls w) (monitors w).
Definition set_stdout (o : list message) (w : World) : World :=
  mkWorld (tick w) (cache_dir w) (globals w) (player w) (executor w) o (calls w) (monitors w).
Definition set_calls (c : list call) (w : World) : World :=
  mkWorld (tick w) (cache_dir w) (globals w) (player w) (executor w) (stdout w) c (monitors w).
Definition set_monitors (n : nat) (w : World) : World :=
  mkWorld (tick w) (cache_dir w) (globals w) (player w) (executor w) (stdout w) (calls w) n.

Definition next (w : World) : World := set_tick (Datatypes.S (tick w)) w.

(** The world after a collaborator was called. *)
Definition after_call (c : call) (w : World) : World :=
  next (set_calls (calls w ++ [c]) w).

(** ** The program *)

Section Program.
Context {E : Env}.

(** *** What the program calls *)

Definition time_time : M float :=
  fun w => (Ret (time_at (tick w)), next w).

Definition search (query : string) (max_results : Z) : M pyval :=
  fun w => (search_at (tick w) query max_results,
            after_call (CallSearch query max_results) w).

Definition extract_info (opts : ydl_opts) (url : string) : M pyval :=
  fun w => (extract_info_at (tick w) opts url,
            after_call (CallExtractInfo opts url) w).

Definition os_path_exists (name : string) : M bool :=
  fun w => (Ret (match cache_dir w !! name with Some _ => true | None => false end), w).

(** [with open(name, 'rb') as f: pickle.load(f)] *)
Definition pickle_load (name : string) : M cache_data :=
  fun w => (match cache_dir w !! name with
            | Some (Pickled d) => Ret d
            | Some Unreadable => Raise UnpicklingError
            | None => Raise OSError
            end, w).

(** [with open(name, 'wb') as f: pickle.dump(d, f)]: when [open] fails the
    file is as it was; when [pickle.dump] fails the file was truncated by
    [open] and holds no pickle. *)
Definition pickle_dump (name : string) (d : cache_data) : M unit :=
  fun w => match dump_at (tick w) name with
           | DumpOk =>
               (Ret tt, next (set_cache_dir (<[name := Pickled d]> (cache_dir w)) w))
           | OpenFails => (Raise OSError, next w)
           | DumpFails =>
               (Raise PicklingError,
                next (set_cache_dir (<[name := Unreadable]> (cache_dir w)) w))
           end.

(** [os.listdir(CACHE_DIR)], in the order the map lists its keys. *)
Definition os_listdir : M (list string) :=
  fun w => (Ret ((map_to_list (cache_dir w)).*1), w).

Definition os_remove (name : string) : M unit :=
  fun w => match cache_dir w !! name with
           | Some _ =>
               if remove_at (tick w) name
               then (Ret tt, next (set_cache_dir (delete name (cache_dir w)) w))
               else (Raise OSError, next w)
           | None => (Raise OSError, next w)
           end.

Definition print (msg : message) : M unit :=
  fun w => (Ret tt, set_stdout (stdout w ++ [msg]) w).

Definition player_command (c : mpv_command) : M unit :=
  fun w => let p := player w in
           (Ret tt, set_player (mkPlayer (volume p) (pause p) (commands p ++ [c]) (terminated p)) w).

Definition player_set_volume (vol : Z) : M unit :=
  fun w => let p := player w in
           (Ret tt, set_player (mkPlayer vol (pause p) (commands p) (terminated p)) w).

Definition player_get_pause : M bool := fun w => (Ret (pause (player w)), w).

Definition player_set_pause (b : bool) : M unit :=
  fun w => let p := player w in
           (Ret tt, set_player (mkPlayer (volume p) b (commands p) (terminated p)) w).

Definition player_terminate : M unit :=
  fun w => let p := player w in
           (Ret tt, set_player (mkPlayer (volume p) (pause p) (commands p) true) w).

Definition executor_shutdown : M unit :=
  fun w => let x := executor w in
           (Ret tt, set_executor (mkExecutor (max_workers x) (submitted x) true) w).

(** [threading.Thread(target=status_monitor, daemon=True).start()]: the
    thread is started; what it prints half a second later is not part of
    the caller's run. *)
Definition start_status_monitor : M unit :=
  fun w => (Ret tt, set_monitors (Datatypes.S (monitors w)) w).

(** [s.lower()] *)
Definition py_lower (s : string) : string :=
  if Text.all_ascii s then Text.map_chars Text.lower_char s else unicode_lower s.

(** [f"{v}"] *)
Definition py_str (v : pyval) : string :=
  match v with
  | VStr s => s
  | _ => format_value v
  end.

(** *** Lines 41-75: the search cache *)

Definition get_cache_key (query : string) : string :=
  MD5.hexdigest (MD5.bytes_of (py_lower query)).

(** [os.path.join(CACHE_DIR, f"search_{cache_key}.pkl")], as the name of
    the file inside CACHE_DIR. *)
Definition cache_file_of (query : string) : string :=
  "search_" +:+ get_cache_key query +:+ ".pkl".

(** Lines 50-57, the read branch: [Some r] is [return r], [None] is falling
    through to the fresh search. *)
Definition cache_get (cache_file : string) : M (option pyval) :=
  let* present := os_path_exists cache_file in
  if present : bool then
    try_except
      (let* cached := pickle_load cache_file in
       let* now := time_time in
       if PrimFloat.ltb (PrimFloat.sub now (timestamp cached)) 3600%float
       then ret (Some (results cached))
       else ret None)
      (fun _ => ret None)
  else ret None.

(** Lines 65-70: the entry is written with the time of the write. *)
Definition cache_put (cache_file : string) (res : pyval) : M unit :=
  let* now := time_time in
  pickle_dump cache_file (CacheData now res).

Definition cached_search (query : string) (max_results : Z) : M pyval :=
  let cache_file := cache_file_of query in
  let* hit := cache_get cache_file in
  match hit with
  | Some r => ret r
  | None =>
      try_except
        (let* res := search query max_results in
         cache_put cache_file res;;
         ret res)
        (fun _ => ret VNone)
  end.

(** *** Lines 94-126: extraction *)

(** [[f for f in formats if f.get('acodec') != 'none']] *)
Fixpoint audio_formats_of (formats : list pyval) : outcome (list pyval) :=
  match formats with
  | [] => Ret []
  | f :: rest =>
      let+ acodec := Py.get f "acodec" VNone in
      let+ others := audio_formats_of rest in
      Ret (if Py.ne_str acodec "none" then f :: others else others)
  end.

(** The loop of lines 116-118: [Some u] is [return u]. *)
Fixpoint first_opus (audio_formats : list pyval) : outcome (option pyval) :=
  match audio_formats with
  | [] => Ret None
  | f :: rest =>
      let+ acodec := Py.get f "acodec" (VStr "") in
      let+ is_opus := Py.contains "opus" acodec in
      if is_opus : bool then
        let+ u := Py.getitem f "url" in Ret (Some u)
      else first_opus rest
  end.

(** Lines 112-124 on the info dictionary. *)
Definition select_url (info : pyval) : outcome pyval :=
  let+ formats := Py.get info "formats" (VList []) in
  let+ items := Py.iter formats in
  let+ audio_formats := audio_formats_of items in
  let+ opus := first_opus audio_formats in
  match opus with
  | Some u => Ret u
  | None =>
      if Py.truthy (VList audio_formats) then
        let+ f := Py.first (VList audio_formats) in
        Py.getitem f "url"
      else Py.getitem info "url"
  end.

Definition page_url (video_id : pyval) : string :=
  "https://youtu.be/" +:+ py_str video_id.

Definition extract_audio_url_async (video_id : pyval) : M pyval :=
  try_except
    (let* info := extract_info ydl_opts_async (page_url video_id) in
     lift (select_url info))
    (fun _ => ret (VStr (page_url video_id))).

(** *** Lines 129-143: the direct resolver *)

Definition youtube_search_first_original (query : string) : M (pyval * pyval) :=
  let* info := extract_info ydl_opts_original query in
  let* entries := lift (Py.getitem info "entries") in
  let* video := lift (Py.first entries) in
  let* url := lift (Py.getitem video "url") in
  let* title := lift (Py.getitem video "title") in
  ret (url, title).

(** *** Lines 77-92: the fast resolver.  The local [url] of line 85 is
    never read. *)

Definition youtube_search_first_fast (query : string) : M (pyval * pyval) :=
  let* search_results := cached_search query 3 in
  if Py.truthy search_results then
    let* first := lift (Py.first search_results) in
    let* video_id := lift (Py.getitem first "video_id") in
    let* first' := lift (Py.first search_results) in
    let* title := lift (Py.getitem first' "title") in
    let* audio_url := extract_audio_url_async video_id in
    ret (audio_url, title)
  else youtube_search_first_original query.

(** *** Lines 145-174 *)

Definition play_youtube (query : string) (use_cache : bool) : M unit :=
  let* start_time := time_time in
  let* found := (if use_cache then youtube_search_first_fast query
                 else youtube_search_first_original query) in
  let* finish := time_time in
  print (MsgPlaying (PrimFloat.sub finish start_time) (snd found));;
  player_command (Loadfile (fst found) "replace");;
  start_status_monitor.

Fixpoint remove_pkl (files : list string) : M unit :=
  match files with
  | [] => ret tt
  | file :: rest =>
      (if Text.endswith file ".pkl" then os_remove file else ret tt);;
      remove_pkl rest
  end.

Definition clear_cache : M unit :=
  let* files := os_listdir in
  remove_pkl files;;
  print MsgCacheCleared.

Definition show_help : M unit := print MsgHelp.

(** *** Lines 188-258: the command loop *)

(** The locals of the loop: [fast_mode], and [q] once it has been bound. *)
Record loop_state := LoopState { fast_mode : bool; q : option string }.

(** What [input()] does: return a line, or raise [KeyboardInterrupt] or
    [EOFError]. *)
Inductive input_event :=
| Line (s : string)
| Interrupt
| EndOfInput.

Inductive control := Continue | Break.

(** Lines 221-227 *)
Definition volume_command (cmd : string) : M unit :=
  try_except
    (let* token := lift (match nth_error (Text.split cmd) 1 with
                         | Some t => Ret t
                         | None => Raise IndexError
                         end) in
     let* vol := lift (match Text.parse_int token with
                       | Some n => Ret n
                       | None => Raise ValueError
                       end) in
     if (0 <=? vol) && (vol <=? 100) then
       player_set_volume vol;;
       print (MsgVolumeSet vol)
     else ret tt)
    (fun _ => print MsgVolumeUsage).

(** Lines 203-238 *)
Definition run_command (cmd : string) (st : loop_state) : M (control * loop_state) :=
  if String.eqb cmd "/exit" || String.eqb cmd "/quit" then
    player_terminate;; executor_shutdown;; ret (Break, st)
  else if String.eqb cmd "/help" then
    show_help;; ret (Continue, st)
  else if String.eqb cmd "/cache" then
    clear_cache;; ret (Continue, st)
  else if String.eqb cmd "/fast" then
    let fast := negb (fast_mode st) in
    print (MsgFastMode fast);; ret (Continue, LoopState fast (q st))
  else if Text.startswith cmd "/volume " then
    volume_command cmd;; ret (Continue, st)
  else if String.eqb cmd "/pause" then
    let* paused := player_get_pause in
    player_set_pause (negb paused);;
    let* paused' := player_get_pause in
    print (if paused' : bool then MsgPaused else MsgResumed);; ret (Continue, st)
  else if String.eqb cmd "/stop" then
    player_command Stop;; print MsgStopped;; ret (Continue, st)
  else
    print MsgUnknownCommand;; ret (Continue, st).

(** Lines 198-242, once [q] is bound. *)
Definition loop_body (query : string) (st : loop_state) : M (control * loop_state) :=
  if String.eqb query "" then ret (Continue, st)
  else if Text.startswith query "/" then run_command (py_lower query) st
  else (play_youtube query (fast_mode st);; ret (Continue, st)).

(** Lines 244-248 *)
Definition on_interrupt (st : loop_state) : M (control * loop_state) :=
  print MsgExiting;; player_terminate;; executor_shutdown;; ret (Break, st).

(** Lines 250-258 *)
Definition on_exception (e : exn) (st : loop_state) : M (control * loop_state) :=
  print (MsgError e);;
  try_except
    (let* found := (match q st with
                    | Some query => youtube_search_first_original query
                    | None => raise (NameError "q")
                    end) in
     player_command (Loadfile (fst found) "replace");;
     print (MsgPlayingFallback (snd found)))
    (fun _ => print MsgTryAnother);;
  ret (Continue, st).

Definition with_handlers (st : loop_state) (body : M (control * loop_state))
  : M (control * loop_state) :=
  try_except body
    (fun e => if is_Exception e then on_exception e st else on_interrupt st).

(** One turn of [while True]. *)
Definition loop_iteration (ev : input_event) (st : loop_state) : M (control * loop_state) :=
  match ev with
  | Line s =>
      let query := Text.strip s in
      let st' := LoopState (fast_mode st) (Some query) in
      with_handlers st' (loop_body query st')
  | Interrupt => with_handlers st (raise KeyboardInterrupt)
  | EndOfInput => with_handlers st (raise EOFError)
  end.

(** The loop on the inputs it is given; it is observed no further than
    they reach. *)
Fixpoint main_loop (events : list input_event) (st : loop_state) : M unit :=
  match events with
  | [] => ret tt
  | ev :: rest =>
      let* r := loop_iteration ev st in
      match fst r with
      | Break => ret tt
      | Continue => main_loop rest (snd r)
      end
  end.

Definition main (events : list input_event) : M unit :=
  print MsgBanner;; print MsgTypeHelp;;
  main_loop events (LoopState true None).

(** *** The module's top level, lines 1-38 and the definitions after *)

(** The names of the [builtins] module of CPython 3. *)
Definition builtins : list string :=
  [ "ArithmeticError"; "AssertionError"; "AttributeError"; "BaseException";
    "BaseExceptionGroup"; "EncodingWarning"; "ExceptionGroup";
    "BlockingIOError"; "BrokenPipeError"; "BufferError"; "BytesWarning";
    "ChildProcessError"; "ConnectionAbortedError"; "ConnectionError";
    "ConnectionRefusedError"; "ConnectionResetError"; "DeprecationWarning";
    "EOFError"; "Ellipsis"; "EnvironmentError"; "Exception"; "False";
    "FileExistsError"; "FileNotFoundError"; "FloatingPointError";
    "FutureWarning"; "GeneratorExit"; "IOError"; "ImportError";
    "ImportWarning"; "IndentationError"; "IndexError"; "InterruptedError";
    "IsADirectoryError"; "KeyError"; "KeyboardInterrupt"; "LookupError";
    "MemoryError"; "ModuleNotFoundError"; "NameError"; "None";
    "NotADirectoryError"; "NotImplemented"; "NotImplementedError"; "OSError";
    "OverflowError"; "PendingDeprecationWarning"; "PermissionError";
    "ProcessLookupError"; "RecursionError"; "ReferenceError";
    "ResourceWarning"; "RuntimeError"; "RuntimeWarning"; "StopAsyncIteration";
    "StopIteration"; "SyntaxError"; "SyntaxWarning"; "SystemError";
    "SystemExit"; "TabError"; "TimeoutError"; "True"; "TypeError";
    "UnboundLocalError"; "UnicodeDecodeError"; "UnicodeEncodeError";
    "UnicodeError"; "UnicodeTranslateError"; "UnicodeWarning"; "UserWarning";
    "ValueError"; "Warning"; "ZeroDivisionError"; "__build_class__";
    "__debug__"; "__doc__"; "__import__"; "__loader__"; "__name__";
    "__package__"; "__spec__"; "abs"; "aiter"; "all"; "anext"; "any";
    "ascii"; "bin"; "bool"; "breakpoint"; "bytearray"; "bytes"; "callable";
    "chr"; "classmethod"; "compile"; "complex"; "copyright"; "credits";
    "delattr"; "dict"; "dir"; "divmod"; "enumerate"; "eval"; "exec"; "exit";
    "filter"; "float"; "format"; "frozenset"; "getattr"; "globals";
    "hasattr"; "hash"; "help"; "hex"; "id"; "input"; "int"; "isinstance";
    "issubclass"; "iter"; "len"; "license"; "list"; "locals"; "map"; "max";
    "memoryview"; "min"; "next"; "object"; "oct"; "open"; "ord"; "pow";
    "print"; "property"; "quit"; "range"; "repr"; "reversed"; "round";
    "set"; "setattr"; "slice"; "sorted"; "staticmethod"; "str"; "sum";
    "super"; "tuple"; "type"; "vars"; "zip" ].

(** The names a module has before its first statement runs. *)
Definition module_names : list string :=
  [ "__name__"; "__doc__"; "__package__"; "__loader__"; "__spec__";
    "__file__"; "__builtins__" ].

Definition fresh_namespace : M unit :=
  fun w => (Ret tt, set_globals (list_to_set module_names) w).

(** Reading a name: the module's globals, then the builtins. *)
Definition load_name (x : string) : M unit :=
  fun w => if bool_decide (x ∈ globals w) || existsb (String.eqb x) builtins
           then (Ret tt, w)
           else (Raise (NameError x), w).

Definition store_name (x : string) : M unit :=
  fun w => (Ret tt, set_globals ({[ x ]} ∪ globals w) w).

(** [import module] or [from module import name], binding [name]. *)
Definition import_module (module name : string) : M unit :=
  if import_ok module then store_name name else raise (ImportError module).

Definition read_environ_path : M unit :=
  if environ_has_path then ret tt else raise (KeyError "PATH").

Definition os_makedirs : M unit :=
  if makedirs_ok then ret tt else raise OSError.

Definition construct_player : M unit :=
  fun w => (Ret tt, set_player (mkPlayer 60 false [] false) w).

Definition construct_executor : M unit :=
  fun w => (Ret tt, set_executor (mkExecutor 3 [] false) w).

Definition module_toplevel (events : list input_event) : M unit :=
  fresh_namespace;;
  (* lines 2-7 *)
  import_module "os" "os";;
  import_module "hashlib" "hashlib";;
  import_module "pickle" "pickle";;
  import_module "threading" "threading";;
  import_module "concurrent.futures" "ThreadPoolExecutor";;
  import_module "time" "time";;
  (* line 9: the right-hand side, then the target *)
  load_name "os";; load_name "__file__";; load_name "os";;
  load_name "os";; read_environ_path;; load_name "os";;
  (* lines 11-16 *)
  import_module "mpv" "MPV";;
  import_module "yt_dlp" "yt_dlp";;
  import_module "yt_search" "search";;
  import_module "warnings" "warnings";;
  load_name "warnings";;
  (* lines 19-20 *)
  store_name "CACHE_DIR";;
  load_name "os";; load_name "CACHE_DIR";; os_makedirs;;
  (* lines 23-35: the callee, then the arguments in order; the first
     argument that is a name is [yes] *)
  load_name "MPV";; load_name "yes";;
  construct_player;; store_name "player";;
  (* line 38 *)
  load_name "ThreadPoolExecutor";; construct_executor;; store_name "executor";;
  (* the function definitions *)
  store_name "get_cache_key";; store_name "cached_search";;
  store_name "youtube_search_first_fast";; store_name "extract_audio_url_async";;
  store_name "youtube_search_first_original";; store_name "play_youtube";;
  store_name "clear_cache";; store_name "show_help";;
  (* line 188 *)
  load_name "__name__";;
  if name_is_main then main events else ret tt.

End Program.

(** ** Frames and invariants of a run *)

(** [m] leaves the observation [g] of the world as it was, whether it
    returns or raises. *)
Definition untouched {X A : Type} (g : World -> X) (m : M A) : Prop :=
  forall w, g (snd (m w)) = g w.

(** What the user controls of the player and the pool: volume, pause,
    whether the player was terminated, and the executor. *)
Definition controls (w : World) : Z * bool * bool * Executor :=
  (volume (player w), pause (player w), terminated (player w), executor w).

Definition volume_in_range (w : World) : Prop := 0 <= volume (player w) <= 100.

(** [m] keeps the property [I] of the world, whether it returns or raises. *)
Definition keeps {A : Type} (I : World -> Prop) (m : M A) : Prop :=
  forall w, I w -> I (snd (m w)).


(** ** The behaviour the specification words, for comparison *)

Module Spec.

(** TTL of a cache entry, in seconds. *)
Definition TTL : float := 3600%float.

(** [get(key)] as the specification has it: the stored payload when an
    entry exists and [now - storedAt <= TTL], absent otherwise. *)
Definition get (dir : gmap string file) (now : float) (key : string) : option pyval :=
  match dir !! key with
  | Some (Pickled d) =>
      if PrimFloat.leb (PrimFloat.sub now (timestamp d)) TTL
      then Some (results d) else None
  | _ => None
  end.

(** A stream format as the specification has it: [{codec, url}]. *)
Record format := Format { codec : string; url : string }.

(** The extraction policy as the specification has it; [None] is the
    signal [ExtractionFailed]. *)
Definition select (formats : list format) (info_url : option string) : option string :=
  let audio := List.filter (fun f => negb (String.eqb (codec f) "none")) formats in
  match List.find (fun f => Text.contains "opus" (codec f)) audio with
  | Some f => Some (url f)
  | None =>
      match audio with
      | f :: _ => Some (url f)
      | [] => info_url
      end
  end.

(** A format dictionary of yt-dlp that carries the two fields of [f] as
    strings, whatever else it carries. *)
Definition represents (v : pyval) (f : format) : Prop :=
  exists d, v = VDict d
            /\ Py.lookup d "acodec" = Some (VStr (codec f))
            /\ Py.lookup d "url" = Some (VStr (url f)).

End Spec.

(** ** Concrete environments and worlds *)

Module Sample.

(** An environment that answers every call the same way. *)
Definition env (clock : nat -> float) (found : outcome pyval)
    (info_async info_original : outcome pyval) (dump : dump_result) (remove : bool) : Env :=
  {| unicode_lower := fun s => s;
     format_value := fun _ => "?";
     time_at := clock;
     search_at := fun _ _ _ => found;
     extract_info_at := fun _ opts _ =>
       match opts with
       | ydl_opts_async => info_async
       | ydl_opts_original => info_original
       end;
     dump_at := fun _ _ => dump;
     remove_at := fun _ _ => remove;
     import_ok := fun _ => true;
     environ_has_path := true;
     makedirs_ok := true;
     name_is_main := true |}.

Definition world (dir : gmap string file) : World :=
  mkWorld 0 dir ∅ (mkPlayer 60 false [] false) (mkExecutor 3 [] false) [] [] 0.

Definition at_tick (n : nat) (dir : gmap string file) : World :=
  set_tick n (world dir).

Definition format_dict (acodec url : string) : pyval :=
  VDict [("format_id", VStr "251"); ("acodec", VStr acodec); ("url", VStr url)].

Definition info_dict (formats : list pyval) : pyval :=
  VDict [("id", VStr "abc"); ("formats", VList formats)].

Definition hits : pyval :=
  VList [VDict [("video_id", VStr "abc"); ("title", VStr "Lofi Beats")];
         VDict [("video_id", VStr "def"); ("title", VStr "Other")]].

Definition direct_info : pyval :=
  VDict [("entries", VList [VDict [("url", VStr "https://direct/1");
                                   ("title", VStr "Direct Title")]])].

Definition noon : nat -> float := fun _ => 1000%float.

(** A clock that reads 1000 s at the first call and 4600 s from then on. *)
Definition hour_later : nat -> float :=
  fun n => match n with O => 1000%float | _ => 4600%float end.


(** A directory with one entry, stored at 1000 s. *)
Definition one_entry : gmap string file :=
  {[ "search_x.pkl" := Pickled (CacheData 1000%float hits) ]}.

(** The cache entry of the query "lofi beats" next to a file that is not a
    cache entry. *)
Definition two_files : gmap string file :=
  {[ "search_09bca9f5c15d7c8a0fd505fe702e189a.pkl" := Pickled (CacheData 1000%float hits);
     "notes.txt" := Unreadable ]}.

End Sample.

(** ** Facts about binary64 comparison *)

Lemma SFcompare_Lt_swap x y :
  SFcompare y x = Some Lt -> SFcompare x y = Some Gt.
Proof.
  destruct x as [sx|sx| |sx mx ex], y as [sy|sy| |sy my ey]; simpl;
    try discriminate; try (destruct sx; discriminate); try (destruct sy; discriminate);
    try (destruct sx, sy; (discriminate || reflexivity)).
  destruct sx, sy; try discriminate; try reflexivity;
    rewrite (Z.compare_antisym ex ey); destruct (ex ?= ey)%Z; simpl;
    try discriminate; try reflexivity;
    pose proof (Pos.compare_antisym mx my) as Ha; unfold Pos.compare in Ha;
    rewrite Ha; destruct (Pos.compare_cont Eq mx my); simpl;
    (discriminate || reflexivity).
Qed.

Lemma float_ltb_asym (x y : float) :
  PrimFloat.ltb y x = true -> PrimFloat.ltb x y = false.
Proof.
  rewrite !FloatAxioms.ltb_spec. unfold SFltb. intros H.
  destruct (SFcompare (Prim2SF y) (Prim2SF x)) as [[]|] eqn:Hc; try discriminate.
  now rewrite (SFcompare_Lt_swap _ _ Hc).
Qed.

Lemma float_eqb_not_ltb (x y : float) :
  PrimFloat.eqb x y = true -> PrimFloat.ltb x y = false.
Proof.
  rewrite FloatAxioms.eqb_spec, FloatAxioms.ltb_spec. unfold SFeqb, SFltb.
  destruct (SFcompare _ _) as [[]|]; intros; (discriminate || reflexivity).
Qed.

Lemma float_leb_iff (x y : float) :
  PrimFloat.leb x y = true <-> PrimFloat.ltb x y = true \/ PrimFloat.eqb x y = true.
Proof.
  rewrite FloatAxioms.eqb_spec, FloatAxioms.ltb_spec, FloatAxioms.leb_spec.
  unfold SFeqb, SFltb, SFleb.
  destruct (SFcompare _ _) as [[]|]; intuition discriminate.
Qed.

(** ** Facts about text *)

Lemma endswith_refl s : Text.endswith s s = true.
Proof. destruct s; simpl; rewrite ?String.eqb_refl, ?Ascii.eqb_refl; reflexivity. Qed.

Lemma endswith_app_l s t suf :
  Text.endswith t suf = true -> Text.endswith (s +:+ t) suf = true.
Proof.
  intros Ht. induction s as [|c s IH]; simpl.
  - exact Ht.
  - rewrite IH. apply orb_true_r.
Qed.

Lemma cache_file_is_pkl `{E : Env} query :
  Text.endswith (cache_file_of query) ".pkl" = true.
Proof.
  unfold cache_file_of. generalize (get_cache_key query). intros key.
  do 2 apply endswith_app_l. apply endswith_refl.
Qed.




(** ** The cache key *)



Example cache_key_of_lofi_beats :
  let E := Sample.env Sample.noon (Ret VNone) (Ret VNone) (Ret VNone) DumpOk true in
  get_cache_key "LoFi Beats" = "09bca9f5c15d7c8a0fd505fe702e189a"
  /\ cache_file_of "lofi beats" = "search_09bca9f5c15d7c8a0fd505fe702e189a.pkl".
Proof. vm_compute. split; reflexivity. Qed.

(** ** The cache *)

Lemma cache_get_eq `{E : Env} (f : string) (w : World) :
  cache_get f w =
  match cache_dir w !! f with
  | Some (Pickled d) =>
      (Ret (if PrimFloat.ltb (PrimFloat.sub (time_at (tick w)) (timestamp d)) 3600%float
            then Some (results d) else None), next w)
  | _ => (Ret None, w)
  end.
Proof.
  unfold cache_get, bind, try_except, os_path_exists, pickle_load, time_time, ret.
  cbn. destruct (cache_dir w !! f) as [[|d]|] eqn:Hf; cbn; rewrite ?Hf; cbn;
    try reflexivity.
  destruct (PrimFloat.ltb _ _); reflexivity.
Qed.

Lemma cache_get_keeps_dir `{E : Env} (f : string) (w : World) :
  cache_dir (snd (cache_get f w)) = cache_dir w.
Proof.
  rewrite cache_get_eq. destruct (cache_dir w !! f) as [[|d]|]; reflexivity.
Qed.

(** C3, as the code has it.  A readable entry is returned exactly while
    [now - storedAt < 3600]: at [now - storedAt = 3600] it is already
    absent, as it is beyond, and the file stays where it was.  A file that
    is missing, or that cannot be read, is absent as well. *)
Theorem cache_get_valid_below_ttl `{E : Env} (f : string) (w : World) (d : cache_data) :
  cache_dir w !! f = Some (Pickled d) ->
  let age := PrimFloat.sub (time_at (tick w)) (timestamp d) in
  (PrimFloat.ltb age Spec.TTL = true ->
     cache_get f w = (Ret (Some (results d)), next w))
  /\ (PrimFloat.ltb age Spec.TTL = false -> cache_get f w = (Ret None, next w))
  /\ (PrimFloat.eqb age Spec.TTL = true -> cache_get f w = (Ret None, next w))
  /\ (PrimFloat.ltb Spec.TTL age = true -> cache_get f w = (Ret None, next w))
  /\ cache_dir (snd (cache_get f w)) !! f = Some (Pickled d).
Proof.
  intros Hf age.
  assert (Hlt : PrimFloat.ltb age Spec.TTL = false ->
                cache_get f w = (Ret None, next w)).
  { intros H. rewrite cache_get_eq, Hf. fold age. unfold Spec.TTL in H.
    now rewrite H. }
  repeat split.
  - intros H. rewrite cache_get_eq, Hf. fold age. unfold Spec.TTL in H.
    now rewrite H.
  - exact Hlt.
  - intros H. apply Hlt. now apply float_eqb_not_ltb.
  - intros H. apply Hlt. now apply float_ltb_asym.
  - now rewrite cache_get_keeps_dir.
Qed.

Lemma cache_get_missing `{E : Env} (f : string) (w : World) :
  cache_dir w !! f = None -> cache_get f w = (Ret None, w).
Proof. intros H. now rewrite cache_get_eq, H. Qed.

(** A corrupt entry is a miss: the failure of the read is not propagated. *)
Lemma cache_get_unreadable `{E : Env} (f : string) (w : World) :
  cache_dir w !! f = Some Unreadable -> cache_get f w = (Ret None, w).
Proof. intros H. now rewrite cache_get_eq, H. Qed.


(** C3, the claim as worded fails at the boundary: an entry stored at
    1000 s and read at 4600 s has [now - storedAt = 3600 <= TTL], so the
    specification's [get] returns it, and the code returns absent. *)
Lemma cache_get_at_ttl_is_absent :
  let E := Sample.env Sample.hour_later (Ret VNone) (Ret VNone) (Ret VNone) DumpOk true in
  let w := Sample.at_tick 1 Sample.one_entry in
  PrimFloat.leb (PrimFloat.sub (time_at (tick w)) 1000%float) Spec.TTL = true
  /\ Spec.get (cache_dir w) (time_at (tick w)) "search_x.pkl" = Some Sample.hits
  /\ fst (cache_get "search_x.pkl" w) = Ret None.
Proof. vm_compute. repeat split; reflexivity. Qed.

Lemma cache_get_valid_below_ttl_witness :
  fst (@cache_get (Sample.env Sample.noon (Ret VNone) (Ret VNone) (Ret VNone) DumpOk true)
         "search_x.pkl" (Sample.world Sample.one_entry))
  = Ret (Some Sample.hits).
Proof.
  pose proof (@cache_get_valid_below_ttl
                (Sample.env Sample.noon (Ret VNone) (Ret VNone) (Ret VNone) DumpOk true)
                "search_x.pkl" (Sample.world Sample.one_entry)
                (CacheData 1000%float Sample.hits) eq_refl) as [H _].
  rewrite H; reflexivity.
Defined.

Lemma cache_put_eq `{E : Env} (f : string) (v : pyval) (w : World) :
  cache_put f v w =
  let d := CacheData (time_at (tick w)) v in
  match dump_at (Datatypes.S (tick w)) f with
  | DumpOk => (Ret tt, next (set_cache_dir (<[f := Pickled d]> (cache_dir w)) (next w)))
  | OpenFails => (Raise OSError, next (next w))
  | DumpFails =>
      (Raise PicklingError, next (set_cache_dir (<[f := Unreadable]> (cache_dir w)) (next w)))
  end.
Proof.
  unfold cache_put, bind, time_time, pickle_dump. cbn.
  destruct (dump_at _ _); reflexivity.
Qed.

(** C7, as the code has it.  When [put] succeeds, the file holds the
    payload with the time of the write, whatever was stored under the key
    before; a [get] of the same key on that directory returns the payload
    itself while [now - storedAt < 3600]. *)
Theorem cache_put_then_get `{E : Env} (f : string) (v : pyval) (w w1 w2 : World) :
  cache_put f v w = (Ret tt, w1) ->
  cache_dir w2 = cache_dir w1 ->
  PrimFloat.ltb (PrimFloat.sub (time_at (tick w2)) (time_at (tick w))) Spec.TTL = true ->
  cache_dir w1 = <[f := Pickled (CacheData (time_at (tick w)) v)]> (cache_dir w)
  /\ cache_get f w2 = (Ret (Some v), next w2).
Proof.
  intros Hput Hdir Hage. rewrite cache_put_eq in Hput. cbn zeta in Hput.
  destruct (dump_at _ _); try discriminate.
  injection Hput as <-. cbn [cache_dir next set_tick set_cache_dir] in *.
  split; [reflexivity|].
  rewrite cache_get_eq, Hdir, lookup_insert_eq. cbn [timestamp results].
  unfold Spec.TTL in Hage. now rewrite Hage.
Qed.

(** C7, the claim as worded fails at the end of the window: an entry put
    at 1000 s and read back at 4600 s, with nothing in between, is within
    the TTL as the specification counts it ([now - storedAt <= TTL]), and
    the code does not return it. *)
Lemma cache_put_then_get_at_ttl_is_absent :
  let E := Sample.env Sample.hour_later (Ret VNone) (Ret VNone) (Ret VNone) DumpOk true in
  let w := Sample.world ∅ in
  let w1 := snd (cache_put "search_x.pkl" (VStr "new") w) in
  cache_put "search_x.pkl" (VStr "new") w = (Ret tt, w1)
  /\ PrimFloat.leb (PrimFloat.sub (time_at (tick w1)) (time_at (tick w))) Spec.TTL = true
  /\ Spec.get (cache_dir w1) (time_at (tick w1)) "search_x.pkl" = Some (VStr "new")
  /\ fst (cache_get "search_x.pkl" w1) = Ret None.
Proof. vm_compute. repeat split; reflexivity. Qed.

Lemma cache_put_then_get_witness :
  let E := Sample.env Sample.noon (Ret VNone) (Ret VNone) (Ret VNone) DumpOk true in
  let w := Sample.world Sample.one_entry in
  cache_get "search_x.pkl" (snd (cache_put "search_x.pkl" (VStr "new") w))
  = (Ret (Some (VStr "new")), next (snd (cache_put "search_x.pkl" (VStr "new") w))).
Proof.
  cbv zeta.
  apply (@cache_put_then_get
           (Sample.env Sample.noon (Ret VNone) (Ret VNone) (Ret VNone) DumpOk true)
           "search_x.pkl" (VStr "new") (Sample.world Sample.one_entry)
           _ _ eq_refl eq_refl eq_refl).
Defined.

(** ** Clearing the cache *)

Lemma remove_pkl_removes `{E : Env} (files : list string) :
  forall w w', remove_pkl files w = (Ret tt, w') ->
    (forall n, cache_dir w !! n = None -> cache_dir w' !! n = None)
    /\ (forall n, n ∈ files -> Text.endswith n ".pkl" = true ->
                  cache_dir w' !! n = None).
Proof.
  induction files as [|file rest IH]; intros w w' Hrun.
  - injection Hrun as <-. split; [auto|]. intros n Hn. inversion Hn.
  - cbn [remove_pkl] in Hrun. unfold bind in Hrun.
    destruct (Text.endswith file ".pkl") eqn:Hpkl.
    + unfold os_remove in Hrun.
      destruct (cache_dir w !! file) eqn:Hfile; [|discriminate].
      destruct (remove_at (tick w) file); [|discriminate].
      apply IH in Hrun as [Hnone Hrest].
      cbn [cache_dir next set_tick set_cache_dir] in Hnone.
      split.
      * intros n Hn. apply Hnone.
        destruct (decide (file = n)) as [->|Hne];
          [apply lookup_delete_eq | now rewrite lookup_delete_ne].
      * intros n Hn Hsuf. apply elem_of_cons in Hn as [->|Hn]; [|now apply Hrest].
        apply Hnone, lookup_delete_eq.
    + cbn in Hrun. apply IH in Hrun as [Hnone Hrest]. split; [exact Hnone|].
      intros n Hn Hsuf. apply elem_of_cons in Hn as [->|Hn]; [congruence|].
      now apply Hrest.
Qed.

Lemma clear_cache_removes `{E : Env} (w w' : World) (n : string) :
  clear_cache w = (Ret tt, w') -> Text.endswith n ".pkl" = true ->
  cache_dir w' !! n = None.
Proof.
  unfold clear_cache, bind, os_listdir. cbn.
  destruct (remove_pkl _ w) as [[[]|e] w1] eqn:Hrun; [|discriminate].
  unfold print. intros Hw Hsuf. injection Hw as <-. cbn [cache_dir set_stdout].
  apply remove_pkl_removes in Hrun as [Hnone Hlisted].
  destruct (cache_dir w !! n) as [x|] eqn:Hn; [|now apply Hnone].
  apply Hlisted; [|exact Hsuf].
  apply list_elem_of_fmap. exists (n, x). split; [reflexivity|].
  now apply elem_of_map_to_list.
Qed.

(** C9. Once [clear_cache] has returned, no query has an entry left: the
    lookup for any key is a miss, and it leaves the world as it is. *)
Theorem clear_cache_then_get `{E : Env} (w w' : World) (query : string) :
  clear_cache w = (Ret tt, w') ->
  cache_dir w' !! cache_file_of query = None
  /\ cache_get (cache_file_of query) w' = (Ret None, w').
Proof.
  intros Hclear.
  assert (H : cache_dir w' !! cache_file_of query = None)
    by (eapply clear_cache_removes; [exact Hclear | apply cache_file_is_pkl]).
  split; [exact H | now apply cache_get_missing].
Qed.

Lemma clear_cache_then_get_witness :
  let E := Sample.env Sample.noon (Ret VNone) (Ret VNone) (Ret VNone) DumpOk true in
  let w := Sample.world Sample.two_files in
  cache_dir w !! cache_file_of "Lofi Beats" = Some (Pickled (CacheData 1000%float Sample.hits))
  /\ cache_dir (snd (clear_cache w)) !! cache_file_of "Lofi Beats" = None
  /\ cache_get (cache_file_of "Lofi Beats") (snd (clear_cache w))
     = (Ret None, snd (clear_cache w)).
Proof.
  cbv zeta. split; [vm_compute; reflexivity|].
  apply (@clear_cache_then_get
           (Sample.env Sample.noon (Ret VNone) (Ret VNone) (Ret VNone) DumpOk true)
           (Sample.world Sample.two_files)).
  vm_compute. reflexivity.
Defined.

(** ** The fast resolver *)

Lemma cached_search_hit `{E : Env} (query : string) (n : Z) (w w1 : World) (r : pyval) :
  cache_get (cache_file_of query) w = (Ret (Some r), w1) ->
  cached_search query n w = (Ret r, w1).
Proof. intros H. unfold cached_search, bind. cbv beta zeta. now rewrite H. Qed.

Lemma cached_search_miss `{E : Env} (query : string) (n : Z) (w w1 : World) :
  cache_get (cache_file_of query) w = (Ret None, w1) ->
  cached_search query n w =
  let w2 := after_call (CallSearch query n) w1 in
  match search_at (tick w1) query n with
  | Ret res =>
      match cache_put (cache_file_of query) res w2 with
      | (Ret _, w3) => (Ret res, w3)
      | (Raise _, w3) => (Ret VNone, w3)
      end
  | Raise _ => (Ret VNone, w2)
  end.
Proof.
  intros H. unfold cached_search, bind. cbv beta zeta. rewrite H.
  unfold try_except, search, after_call, ret. cbv beta zeta.
  destruct (search_at (tick w1) query n) as [res|e]; [|reflexivity].
  destruct (cache_put _ res _) as [[[]|e] w3]; reflexivity.
Qed.

Lemma fast_without_results `{E : Env} (query : string) (w w1 : World) (r : pyval) :
  cached_search query 3 w = (Ret r, w1) -> Py.truthy r = false ->
  youtube_search_first_fast query w = youtube_search_first_original query w1.
Proof.
  intros Hs Hr. unfold youtube_search_first_fast, bind. rewrite Hs.
  cbv beta zeta. now rewrite Hr.
Qed.

Lemma play_youtube_eq `{E : Env} (query : string) (use_cache : bool) (w : World) :
  play_youtube query use_cache w =
  match (if use_cache then youtube_search_first_fast query
         else youtube_search_first_original query) (next w) with
  | (Ret found, w1) =>
      let p := player w1 in
      (Ret tt,
       set_monitors (Datatypes.S (monitors w1))
         (set_player (mkPlayer (volume p) (pause p)
                        (commands p ++ [Loadfile (fst found) "replace"]) (terminated p))
            (set_stdout
               (stdout w1 ++ [MsgPlaying (PrimFloat.sub (time_at (tick w1)) (time_at (tick w)))
                                         (snd found)])
               (next w1))))
  | (Raise e, w1) => (Raise e, w1)
  end.
Proof.
  unfold play_youtube, bind, time_time. cbv beta zeta.
  destruct use_cache;
    [destruct (youtube_search_first_fast query (next w)) as [[found|e] w1]
    |destruct (youtube_search_first_original query (next w)) as [[found|e] w1]];
    reflexivity.
Qed.

(** C5. When the cache has no valid entry for the query and the live
    search raises, the fast resolver is the direct resolver run after the
    failed search, and what [play_youtube] loads into the player and prints
    is the URL and the title the direct resolver returned. *)
Theorem search_failure_falls_back `{E : Env} (query : string) (w w1 : World) (e : exn) :
  cache_get (cache_file_of query) (next w) = (Ret None, w1) ->
  search_at (tick w1) query 3 = Raise e ->
  let w2 := after_call (CallSearch query 3) w1 in
  youtube_search_first_fast query (next w) = youtube_search_first_original query w2
  /\ forall url title w3,
       youtube_search_first_original query w2 = (Ret (url, title), w3) ->
       exists w4,
         play_youtube query true w = (Ret tt, w4)
         /\ commands (player w4)
            = (commands (player w3) ++ [Loadfile url "replace"])%list
         /\ stdout w4
            = (stdout w3 ++ [MsgPlaying (PrimFloat.sub (time_at (tick w3)) (time_at (tick w)))
                                        title])%list.
Proof.
  intros Hmiss Hsearch w2.
  assert (Hfast : youtube_search_first_fast query (next w)
                  = youtube_search_first_original query w2).
  { apply (fast_without_results _ _ _ VNone); [|reflexivity].
    rewrite (cached_search_miss _ _ _ _ Hmiss). cbn zeta. now rewrite Hsearch. }
  split; [exact Hfast|].
  intros url title w3 Hdirect. eexists.
  rewrite play_youtube_eq, Hfast, Hdirect. cbn zeta.
  split; [reflexivity|]. split; reflexivity.
Qed.

Lemma search_failure_falls_back_witness :
  let E := Sample.env Sample.noon (Raise (CollaboratorError "network"))
             (Ret VNone) (Ret Sample.direct_info) DumpOk true in
  let w := Sample.world ∅ in
  fst (youtube_search_first_fast "lofi beats" (next w))
  = Ret (VStr "https://direct/1", VStr "Direct Title").
Proof.
  cbv zeta.
  pose proof (@search_failure_falls_back
                (Sample.env Sample.noon (Raise (CollaboratorError "network"))
                   (Ret VNone) (Ret Sample.direct_info) DumpOk true)
                "lofi beats" (Sample.world ∅) _ (CollaboratorError "network")
                eq_refl eq_refl) as [H _].
  rewrite H. reflexivity.
Defined.

(** C4, where the code departs from the claim: the write of the entry is
    inside the [try] of the live search, so when the search has returned
    and the write fails, [cached_search] gives [None] in place of what was
    found. *)
Theorem failed_write_discards_results `{E : Env} (query : string) (n : Z)
    (w w1 : World) (res : pyval) :
  cache_get (cache_file_of query) w = (Ret None, w1) ->
  search_at (tick w1) query n = Ret res ->
  dump_at (Datatypes.S (Datatypes.S (tick w1))) (cache_file_of query) <> DumpOk ->
  fst (cached_search query n w) = Ret VNone.
Proof.
  intros Hmiss Hsearch Hdump.
  rewrite (cached_search_miss _ _ _ _ Hmiss). cbn zeta. rewrite Hsearch.
  rewrite cache_put_eq. cbn zeta.
  change (tick (after_call (CallSearch query n) w1)) with (Datatypes.S (tick w1)).
  destruct (dump_at _ _); [congruence | reflexivity | reflexivity].
Qed.

Lemma failed_write_discards_results_witness :
  let E := Sample.env Sample.noon (Ret Sample.hits) (Ret VNone) (Ret Sample.direct_info)
             OpenFails true in
  fst (cached_search "lofi beats" 3 (Sample.world ∅)) = Ret VNone.
Proof.
  cbv zeta.
  apply (@failed_write_discards_results
           (Sample.env Sample.noon (Ret Sample.hits) (Ret VNone) (Ret Sample.direct_info)
              OpenFails true)
           "lofi beats" 3 (Sample.world ∅) (Sample.world ∅) Sample.hits).
  - vm_compute. reflexivity.
  - reflexivity.
  - discriminate.
Defined.

(** The same query with and without a failing write: the resolution
    returns the first hit of the search in one case and the answer of the
    direct resolver in the other. *)
Example failed_write_changes_resolution :
  let ok := Sample.env Sample.noon (Ret Sample.hits)
              (Ret (Sample.info_dict [Sample.format_dict "opus" "https://cdn/a"]))
              (Ret Sample.direct_info) DumpOk true in
  let failing := Sample.env Sample.noon (Ret Sample.hits)
              (Ret (Sample.info_dict [Sample.format_dict "opus" "https://cdn/a"]))
              (Ret Sample.direct_info) OpenFails true in
  fst (@youtube_search_first_fast ok "lofi beats" (Sample.world ∅))
  = Ret (VStr "https://cdn/a", VStr "Lofi Beats")
  /\ fst (@youtube_search_first_fast failing "lofi beats" (Sample.world ∅))
     = Ret (VStr "https://direct/1", VStr "Direct Title").
Proof. vm_compute. split; reflexivity. Qed.

(** ** Extraction *)

Lemma extract_audio_url_async_eq `{E : Env} (video_id : pyval) (w : World) :
  extract_audio_url_async video_id w =
  (Ret match extract_info_at (tick w) ydl_opts_async (page_url video_id) with
       | Ret info => match select_url info with
                     | Ret u => u
                     | Raise _ => VStr (page_url video_id)
                     end
       | Raise _ => VStr (page_url video_id)
       end,
   after_call (CallExtractInfo ydl_opts_async (page_url video_id)) w).
Proof.
  unfold extract_audio_url_async, try_except, bind, extract_info, lift, ret.
  destruct (extract_info_at _ _ _) as [info|e]; [|reflexivity].
  destruct (select_url info); reflexivity.
Qed.

(** Extraction returns a value on every answer of yt-dlp, an exception
    included: it never raises. *)
Lemma extract_audio_url_async_returns `{E : Env} (video_id : pyval) (w : World) :
  exists u, fst (extract_audio_url_async video_id w) = Ret u.
Proof. rewrite extract_audio_url_async_eq. eexists. reflexivity. Qed.

Lemma audio_formats_of_represented (items : list pyval) (fmts : list Spec.format) :
  Forall2 Spec.represents items fmts ->
  exists audio,
    audio_formats_of items = Ret audio
    /\ Forall2 Spec.represents audio
         (List.filter (fun f => negb (String.eqb (Spec.codec f) "none")) fmts).
Proof.
  induction 1 as [|item f items fmts (d & -> & Hcodec & Hurl) _ (audio & Haudio & IH)].
  - exists []. split; [reflexivity | constructor].
  - cbn [audio_formats_of Py.get obind]. rewrite Hcodec, Haudio.
    cbn [obind Py.ne_str List.filter].
    destruct (negb (String.eqb (Spec.codec f) "none")).
    + eexists. split; [reflexivity|]. constructor; [|exact IH].
      exists d. auto.
    + eexists. split; [reflexivity | exact IH].
Qed.

Lemma first_opus_represented (audio : list pyval) (fmts : list Spec.format) :
  Forall2 Spec.represents audio fmts ->
  first_opus audio
  = Ret (option_map (fun f => VStr (Spec.url f))
           (List.find (fun f => Text.contains "opus" (Spec.codec f)) fmts)).
Proof.
  induction 1 as [|item f audio fmts (d & -> & Hcodec & Hurl) _ IH]; [reflexivity|].
  cbn [first_opus Py.get Py.contains Py.getitem obind List.find].
  rewrite Hcodec. cbn [obind Py.contains].
  destruct (Text.contains "opus" (Spec.codec f)).
  - now rewrite Hurl.
  - exact IH.
Qed.

Lemma select_url_represented (d : list (string * pyval)) (items : list pyval)
    (fmts : list Spec.format) (info_url : option string) :
  Py.get (VDict d) "formats" (VList []) = Ret (VList items) ->
  Forall2 Spec.represents items fmts ->
  Py.lookup d "url" = option_map VStr info_url ->
  select_url (VDict d)
  = match Spec.select fmts info_url with
    | Some u => Ret (VStr u)
    | None => Raise (KeyError "url")
    end.
Proof.
  intros Hformats Hitems Hurl. unfold select_url. rewrite Hformats.
  cbn [obind Py.iter].
  destruct (audio_formats_of_represented _ _ Hitems) as (audio & -> & Haudio).
  cbn [obind]. rewrite (first_opus_represented _ _ Haudio).
  unfold Spec.select. cbn [obind].
  destruct (List.find _ _) as [f|]; [reflexivity|]. cbn [option_map].
  destruct Haudio as [|item f audio fmts' (d' & -> & _ & Hu) _].
  - cbn [Py.truthy Py.getitem]. rewrite Hurl. now destruct info_url.
  - cbn [Py.truthy Py.first obind Py.getitem]. now rewrite Hu.
Qed.

(** C1, as the code has it.  On an info dictionary whose formats carry a
    codec and a URL, extraction follows the preference order of the policy
    (first audio-capable format with "opus" in its codec, else first
    audio-capable format, else the URL of the info dictionary); where the
    policy finds nothing, it returns the address of the video page,
    [https://youtu.be/<id>], and raises nothing. *)
Theorem extraction_follows_policy `{E : Env} (video_id : pyval) (w : World)
    (d : list (string * pyval)) (items : list pyval)
    (fmts : list Spec.format) (info_url : option string) :
  extract_info_at (tick w) ydl_opts_async (page_url video_id) = Ret (VDict d) ->
  Py.get (VDict d) "formats" (VList []) = Ret (VList items) ->
  Forall2 Spec.represents items fmts ->
  Py.lookup d "url" = option_map VStr info_url ->
  fst (extract_audio_url_async video_id w)
  = Ret (VStr match Spec.select fmts info_url with
              | Some u => u
              | None => page_url video_id
              end).
Proof.
  intros Hinfo Hformats Hitems Hurl.
  rewrite extract_audio_url_async_eq, Hinfo.
  rewrite (select_url_represented _ _ _ _ Hformats Hitems Hurl).
  now destruct (Spec.select fmts info_url).
Qed.

(** C1, the claim as worded fails where no format is found and the info
    dictionary has no URL: the policy signals ExtractionFailed there, and
    the code returns the address of the video page. *)
Lemma extraction_without_formats_returns_page :
  let E := Sample.env Sample.noon (Ret VNone) (Ret (Sample.info_dict []))
             (Ret VNone) DumpOk true in
  Spec.select [] None = None
  /\ fst (extract_audio_url_async (VStr "abc") (Sample.world ∅))
     = Ret (VStr "https://youtu.be/abc").
Proof. vm_compute. split; reflexivity. Qed.

Lemma extraction_follows_policy_witness :
  let E := Sample.env Sample.noon (Ret VNone)
             (Ret (Sample.info_dict [Sample.format_dict "none" "https://cdn/v";
                                     Sample.format_dict "mp4a.40.2" "https://cdn/b";
                                     Sample.format_dict "opus" "https://cdn/a"]))
             (Ret VNone) DumpOk true in
  fst (extract_audio_url_async (VStr "abc") (Sample.world ∅)) = Ret (VStr "https://cdn/a").
Proof.
  cbv zeta.
  apply (@extraction_follows_policy
           (Sample.env Sample.noon (Ret VNone)
              (Ret (Sample.info_dict [Sample.format_dict "none" "https://cdn/v";
                                      Sample.format_dict "mp4a.40.2" "https://cdn/b";
                                      Sample.format_dict "opus" "https://cdn/a"]))
              (Ret VNone) DumpOk true)
           (VStr "abc") (Sample.world ∅) _ _
           [Spec.Format "none" "https://cdn/v"; Spec.Format "mp4a.40.2" "https://cdn/b";
            Spec.Format "opus" "https://cdn/a"]
           None eq_refl eq_refl).
  - repeat constructor; eexists; (split; [reflexivity|split; reflexivity]).
  - reflexivity.
Defined.

(** The four cases of the format selection of the specification, run. *)
Example format_selection_cases :
  let run info :=
    fst (@extract_audio_url_async
           (Sample.env Sample.noon (Ret VNone) (Ret info) (Ret VNone) DumpOk true)
           (VStr "abc") (Sample.world ∅)) in
  run (Sample.info_dict [Sample.format_dict "opus" "A"; Sample.format_dict "aac" "B"])
    = Ret (VStr "A")
  /\ run (Sample.info_dict [Sample.format_dict "aac" "B"]) = Ret (VStr "B")
  /\ run (VDict [("formats", VList []); ("url", VStr "U")]) = Ret (VStr "U")
  /\ run (VDict [("formats", VList [])]) = Ret (VStr "https://youtu.be/abc").
Proof. vm_compute. repeat split; reflexivity. Qed.

(** ** The executor *)

Lemma cache_get_world `{E : Env} (f : string) (w w1 : World) (o : outcome (option pyval)) :
  cache_get f w = (o, w1) -> (w1 = w \/ w1 = next w) /\ exists x, o = Ret x.
Proof.
  rewrite cache_get_eq.
  destruct (cache_dir w !! f) as [[|d]|]; intros [= <- <-]; eauto.
Qed.

Lemma cached_search_keeps_executor `{E : Env} (query : string) (n : Z) (w : World) :
  executor (snd (cached_search query n w)) = executor w.
Proof.
  destruct (cache_get (cache_file_of query) w) as [o w1] eqn:Hget.
  destruct (cache_get_world _ _ _ _ Hget) as [Hw [[r|] ->]].
  - rewrite (cached_search_hit _ _ _ _ _ Hget). destruct Hw as [->| ->]; reflexivity.
  - rewrite (cached_search_miss _ _ _ _ Hget). cbv zeta.
    destruct (search_at _ _ _) as [res|e].
    + rewrite cache_put_eq. cbv zeta.
      destruct (dump_at _ _); destruct Hw as [->| ->]; reflexivity.
    + destruct Hw as [->| ->]; reflexivity.
Qed.

(** C2, where the code departs from the claim.  On the fast path (the
    search gave a first hit with an id and a title) the resolver calls
    extraction itself: when it returns, yt-dlp has been called and has
    answered, the URL it returns is the one extraction computed, and no job
    was handed to the executor. *)
Theorem fast_path_extracts_in_the_caller `{E : Env} (query : string) (w w1 : World)
    (r hit video_id title : pyval) :
  cached_search query 3 w = (Ret r, w1) ->
  Py.truthy r = true ->
  Py.first r = Ret hit ->
  Py.getitem hit "video_id" = Ret video_id ->
  Py.getitem hit "title" = Ret title ->
  exists u w2,
    extract_audio_url_async video_id w1 = (Ret u, w2)
    /\ youtube_search_first_fast query w = (Ret (u, title), w2)
    /\ calls w2 = (calls w1 ++ [CallExtractInfo ydl_opts_async (page_url video_id)])%list
    /\ tick w2 = Datatypes.S (tick w1)
    /\ submitted (executor w2) = submitted (executor w).
Proof.
  intros Hsearch Htruthy Hfirst Hid Htitle.
  pose proof (cached_search_keeps_executor query 3 w) as Hexec.
  rewrite Hsearch in Hexec. cbn [snd] in Hexec.
  rewrite extract_audio_url_async_eq. do 2 eexists. split; [reflexivity|].
  split; [|split; [reflexivity|split; [reflexivity|]]].
  - unfold youtube_search_first_fast, bind. rewrite Hsearch. cbv beta zeta.
    rewrite Htruthy. unfold lift. rewrite Hfirst, Hid, Htitle.
    rewrite extract_audio_url_async_eq. reflexivity.
  - cbn. now rewrite Hexec.
Qed.

Lemma fast_path_extracts_in_the_caller_witness :
  let E := Sample.env Sample.noon (Ret Sample.hits)
             (Ret (Sample.info_dict [Sample.format_dict "opus" "https://cdn/a"]))
             (Ret VNone) DumpOk true in
  exists u w2,
    extract_audio_url_async (VStr "abc") (snd (cached_search "lofi beats" 3 (Sample.world ∅)))
      = (Ret u, w2)
    /\ youtube_search_first_fast "lofi beats" (Sample.world ∅)
       = (Ret (u, VStr "Lofi Beats"), w2)
    /\ calls w2
       = (calls (snd (cached_search "lofi beats" 3 (Sample.world ∅)))
          ++ [CallExtractInfo ydl_opts_async (page_url (VStr "abc"))])%list
    /\ tick w2 = Datatypes.S (tick (snd (cached_search "lofi beats" 3 (Sample.world ∅))))
    /\ submitted (executor w2) = submitted (executor (Sample.world ∅)).
Proof.
  cbv zeta.
  apply (@fast_path_extracts_in_the_caller
           (Sample.env Sample.noon (Ret Sample.hits)
              (Ret (Sample.info_dict [Sample.format_dict "opus" "https://cdn/a"]))
              (Ret VNone) DumpOk true)
           "lofi beats" (Sample.world ∅) _ Sample.hits
           (VDict [("video_id", VStr "abc"); ("title", VStr "Lofi Beats")])).
  - vm_compute. reflexivity.
  - reflexivity.
  - reflexivity.
  - reflexivity.
  - reflexivity.
Defined.

(** What the player is given depends on the answer of yt-dlp, and the
    executor has received no job when the resolver returns. *)
Example fast_path_waits_for_extraction :
  let env_with url :=
    Sample.env Sample.noon (Ret Sample.hits)
      (Ret (Sample.info_dict [Sample.format_dict "opus" url])) (Ret VNone) DumpOk true in
  let run url := @youtube_search_first_fast (env_with url) "lofi beats" (Sample.world ∅) in
  fst (run "https://cdn/a") = Ret (VStr "https://cdn/a", VStr "Lofi Beats")
  /\ fst (run "https://cdn/b") = Ret (VStr "https://cdn/b", VStr "Lofi Beats")
  /\ submitted (executor (snd (run "https://cdn/a"))) = [].
Proof. vm_compute. repeat split; reflexivity. Qed.

(** ** The command loop *)

Lemma volume_command_out_of_range `{E : Env} (cmd token : string) (vol : Z) (w : World) :
  nth_error (Text.split cmd) 1 = Some token ->
  Text.parse_int token = Some vol ->
  (vol <? 0) || (100 <? vol) = true ->
  volume_command cmd w = (Ret tt, w).
Proof.
  intros Htoken Hvol Hrange.
  unfold volume_command, try_except, bind, lift. rewrite Htoken, Hvol.
  replace ((0 <=? vol) && (vol <=? 100)) with false; [reflexivity|].
  apply orb_true_iff in Hrange as [H|H]; apply Z.ltb_lt in H; symmetry;
    apply andb_false_iff; [left | right]; apply Z.leb_gt; exact H.
Qed.

(** C6, where the code departs from the claim.  A [/volume] command whose
    argument is an integer outside 0..100 leaves the world as it is: the
    volume keeps its value and the loop goes on, and nothing is printed,
    the usage message included. *)
Theorem out_of_range_volume_is_silent `{E : Env} (cmd token : string) (vol : Z)
    (st : loop_state) (w : World) :
  Text.startswith cmd "/volume " = true ->
  nth_error (Text.split cmd) 1 = Some token ->
  Text.parse_int token = Some vol ->
  (vol <? 0) || (100 <? vol) = true ->
  run_command cmd st w = (Ret (Continue, st), w).
Proof.
  intros Hprefix Htoken Hvol Hrange. unfold run_command.
  assert (Hne : forall other, Text.startswith other "/volume " = false ->
                              String.eqb cmd other = false).
  { intros other Hother. destruct (String.eqb_spec cmd other) as [->|]; congruence. }
  rewrite !Hne by reflexivity. cbn [orb]. rewrite Hprefix.
  unfold bind. now rewrite (volume_command_out_of_range _ _ _ _ Htoken Hvol Hrange).
Qed.

Lemma out_of_range_volume_is_silent_witness :
  let E := Sample.env Sample.noon (Ret VNone) (Ret VNone) (Ret VNone) DumpOk true in
  run_command "/volume 150" (LoopState true None) (Sample.world ∅)
  = (Ret (Continue, LoopState true None), Sample.world ∅).
Proof.
  cbv zeta.
  apply (@out_of_range_volume_is_silent
           (Sample.env Sample.noon (Ret VNone) (Ret VNone) (Ret VNone) DumpOk true)
           "/volume 150" "150" 150); reflexivity.
Defined.

(** The line [/volume 150] through one turn of the loop, next to a
    non-numeric argument, which does print the usage message. *)
Example volume_150_through_the_loop :
  let E := Sample.env Sample.noon (Ret VNone) (Ret VNone) (Ret VNone) DumpOk true in
  let w := Sample.world ∅ in
  loop_iteration (Line "/volume 150") (LoopState true None) w
    = (Ret (Continue, LoopState true (Some "/volume 150")), w)
  /\ stdout (snd (loop_iteration (Line "/volume abc") (LoopState true None) w))
     = [MsgVolumeUsage]
  /\ volume (player (snd (loop_iteration (Line "/volume 40") (LoopState true None) w))) = 40
  /\ stdout (snd (loop_iteration (Line "/volume -5") (LoopState true None) w)) = [].
Proof. vm_compute. repeat split; reflexivity. Qed.

(** ** The module's top level *)

Section Toplevel.
Context {E : Env}.
Variables (A : Type) (k : unit -> M A) (G : gset string) (w : World).

Lemma run_fresh_namespace :
  bind fresh_namespace k w = k tt (set_globals (list_to_set module_names) w).
Proof. reflexivity. Qed.

Lemma run_store_name x :
  bind (store_name x) k (set_globals G w) = k tt (set_globals ({[ x ]} ∪ G) w).
Proof. reflexivity. Qed.

Lemma run_import_module m x :
  bind (import_module m x) k (set_globals G w)
  = if import_ok m then k tt (set_globals ({[ x ]} ∪ G) w)
    else (Raise (ImportError m), set_globals G w).
Proof. unfold import_module. destruct (import_ok m); reflexivity. Qed.

Lemma run_load_name x :
  bind (load_name x) k (set_globals G w)
  = if bool_decide (x ∈ G) || existsb (String.eqb x) builtins
    then k tt (set_globals G w)
    else (Raise (NameError x), set_globals G w).
Proof.
  unfold bind, load_name. cbn [globals set_globals].
  destruct (bool_decide (x ∈ G) || existsb (String.eqb x) builtins); reflexivity.
Qed.

Lemma run_read_environ_path :
  bind read_environ_path k (set_globals G w)
  = if environ_has_path then k tt (set_globals G w)
    else (Raise (KeyError "PATH"), set_globals G w).
Proof. unfold read_environ_path. destruct environ_has_path; reflexivity. Qed.

Lemma run_os_makedirs :
  bind os_makedirs k (set_globals G w)
  = if makedirs_ok then k tt (set_globals G w)
    else (Raise OSError, set_globals G w).
Proof. unfold os_makedirs. destruct makedirs_ok; reflexivity. Qed.

End Toplevel.

Ltac stops_here :=
  do 2 eexists; split; [reflexivity|];
  repeat (split; [reflexivity|]);
  let Hall := fresh "Hall" in
  intros Hall ? ?;
  repeat match goal with
         | H : import_ok ?m = false |- _ => rewrite Hall in H
         end;
  first [reflexivity | congruence].

Ltac load_known :=
  rewrite run_load_name; cbv beta;
  match goal with
  | |- context [bool_decide ?P || existsb ?f ?l] =>
      replace (bool_decide P || existsb f l) with true by (vm_compute; reflexivity)
  end;
  cbv beta iota.

Ltac import_or_stop :=
  rewrite run_import_module; cbv beta;
  match goal with
  | |- context [import_ok ?m] =>
      let H := fresh "Himport" in
      destruct (import_ok m) eqn:H; [|stops_here]
  end.

(** C10. Running the module never gets past the construction of the
    player: whatever the inputs and the environment, the top level ends in
    an exception with nothing printed, no collaborator called, no player
    and no executor built and the cache untouched; when the imports, the
    PATH lookup and the creation of the cache directory succeed, the
    exception is the NameError of the name [yes]. *)
Theorem module_load_raises `{E : Env} (events : list input_event) (w : World) :
  exists e w',
    module_toplevel events w = (Raise e, w')
    /\ stdout w' = stdout w /\ calls w' = calls w /\ tick w' = tick w
    /\ player w' = player w /\ executor w' = executor w
    /\ cache_dir w' = cache_dir w
    /\ ((forall m, import_ok m = true) -> environ_has_path = true ->
        makedirs_ok = true -> e = NameError "yes").
Proof.
  unfold module_toplevel.
  rewrite run_fresh_namespace; cbv beta.
  do 6 import_or_stop.
  do 4 load_known.
  rewrite run_read_environ_path; cbv beta.
  destruct environ_has_path eqn:Hpath; [|stops_here].
  load_known.
  do 4 import_or_stop.
  load_known.
  rewrite run_store_name; cbv beta.
  do 2 load_known.
  rewrite run_os_makedirs; cbv beta.
  destruct makedirs_ok eqn:Hdirs; [|stops_here].
  load_known.
  rewrite run_load_name; cbv beta.
  match goal with
  | |- context [bool_decide ?P || existsb ?f ?l] =>
      replace (bool_decide P || existsb f l) with false by (vm_compute; reflexivity)
  end.
  cbv beta iota. stops_here.
Qed.

Example module_load_with_everything_installed :
  let E := Sample.env Sample.noon (Ret Sample.hits) (Ret VNone) (Ret VNone) DumpOk true in
  fst (module_toplevel [Line "lofi beats"; Line "/exit"] (Sample.world ∅))
  = Raise (NameError "yes").
Proof. vm_compute. reflexivity. Qed.

Lemma module_load_raises_witness :
  let E := Sample.env Sample.noon (Ret Sample.hits) (Ret VNone) (Ret VNone) DumpOk true in
  exists w',
    module_toplevel [Line "lofi beats"; Line "/exit"] (Sample.world ∅)
    = (Raise (NameError "yes"), w')
    /\ stdout w' = [] /\ calls w' = [].
Proof.
  cbv zeta.
  destruct (@module_load_raises
              (Sample.env Sample.noon (Ret Sample.hits) (Ret VNone) (Ret VNone) DumpOk true)
              [Line "lofi beats"; Line "/exit"] (Sample.world ∅))
    as (e & w' & Hrun & Hout & Hcalls & _ & _ & _ & _ & He).
  exists w'. rewrite Hrun, Hout, Hcalls.
  rewrite (He (fun _ => eq_refl) eq_refl eq_refl).
  repeat split; reflexivity.
Defined.

(** * Further properties of the code *)

(** ** What a computation leaves as it was *)

Lemma untouched_bind {X A B} (g : World -> X) (m : M A) (k : A -> M B) :
  untouched g m -> (forall a, untouched g (k a)) -> untouched g (bind m k).
Proof.
  intros Hm Hk w. unfold bind. specialize (Hm w).
  destruct (m w) as [[a|e] w1]; cbn [snd] in *; [|exact Hm].
  now rewrite Hk.
Qed.

Lemma untouched_try_except {X A} (g : World -> X) (m : M A) (h : exn -> M A) :
  untouched g m -> (forall e, untouched g (h e)) -> untouched g (try_except m h).
Proof.
  intros Hm Hh w. unfold try_except. specialize (Hm w).
  destruct (m w) as [[a|e] w1]; cbn [snd] in *; [exact Hm|].
  now rewrite Hh.
Qed.

Lemma untouched_ret {X A} (g : World -> X) (a : A) : untouched g (ret a).
Proof. intros w. reflexivity. Qed.

Lemma untouched_raise {X A} (g : World -> X) (e : exn) : untouched g (@raise A e).
Proof. intros w. reflexivity. Qed.

Lemma untouched_lift {X A} (g : World -> X) (o : outcome A) : untouched g (lift o).
Proof. intros w. reflexivity. Qed.


(** ** The search cache, lines 41-75 *)

Lemma cache_file_of_normalized `{E : Env} (q q' : string) :
  py_lower q' = py_lower q -> cache_file_of q' = cache_file_of q.
Proof. intros H. unfold cache_file_of, get_cache_key. now rewrite H. Qed.

Lemma cached_search_fresh `{E : Env} (query : string) (n : Z) (w w1 : World) (res : pyval) :
  cache_get (cache_file_of query) w = (Ret None, w1) ->
  search_at (tick w1) query n = Ret res ->
  dump_at (Datatypes.S (Datatypes.S (tick w1))) (cache_file_of query) = DumpOk ->
  cached_search query n w
  = (Ret res,
     next (set_cache_dir
             (<[cache_file_of query := Pickled (CacheData (time_at (Datatypes.S (tick w1))) res)]>
                (cache_dir w1))
             (next (after_call (CallSearch query n) w1)))).
Proof.
  intros Hmiss Hsearch Hdump.
  rewrite (cached_search_miss _ _ _ _ Hmiss). cbv zeta. rewrite Hsearch, cache_put_eq.
  cbv zeta.
  change (tick (after_call (CallSearch query n) w1)) with (Datatypes.S (tick w1)).
  now rewrite Hdump.
Qed.

(** X1. Once a search was made and stored, a later [cached_search] for a
    query with the same lower-cased text, on that directory and while the
    entry is younger than 3600 s, returns the stored results whatever
    [max_results] it is given, and does not call yt_search. *)
Theorem cached_search_serves_stored_results `{E : Env} (q q' : string) (n n' : Z)
    (w w1 w2 : World) (res : pyval) :
  cache_get (cache_file_of q) w = (Ret None, w1) ->
  search_at (tick w1) q n = Ret res ->
  dump_at (Datatypes.S (Datatypes.S (tick w1))) (cache_file_of q) = DumpOk ->
  py_lower q' = py_lower q ->
  cache_dir w2 = cache_dir (snd (cached_search q n w)) ->
  PrimFloat.ltb (PrimFloat.sub (time_at (tick w2)) (time_at (Datatypes.S (tick w1))))
                3600%float = true ->
  fst (cached_search q n w) = Ret res
  /\ cached_search q' n' w2 = (Ret res, next w2)
  /\ calls (snd (cached_search q' n' w2)) = calls w2.
Proof.
  intros Hmiss Hsearch Hdump Hlower Hdir Hage.
  rewrite (cached_search_fresh _ _ _ _ _ Hmiss Hsearch Hdump) in *.
  cbn [fst snd cache_dir next set_tick set_cache_dir] in Hdir.
  assert (Hhit : cached_search q' n' w2 = (Ret res, next w2)).
  { apply cached_search_hit. rewrite (cache_file_of_normalized _ _ Hlower).
    rewrite cache_get_eq, Hdir, lookup_insert_eq. cbn [timestamp results].
    now rewrite Hage. }
  split; [reflexivity|]. split; [exact Hhit|]. now rewrite Hhit.
Qed.

Lemma cached_search_serves_stored_results_witness :
  let E := Sample.env Sample.noon (Ret Sample.hits) (Ret VNone) (Ret VNone) DumpOk true in
  let w := Sample.world ∅ in
  let w2 := snd (cached_search "lofi beats" 3 w) in
  fst (cached_search "lofi beats" 3 w) = Ret Sample.hits
  /\ cached_search "LoFi Beats" 10 w2 = (Ret Sample.hits, next w2)
  /\ calls (snd (cached_search "LoFi Beats" 10 w2)) = calls w2.
Proof.
  cbv zeta.
  apply (@cached_search_serves_stored_results
           (Sample.env Sample.noon (Ret Sample.hits) (Ret VNone) (Ret VNone) DumpOk true)
           "lofi beats" "LoFi Beats" 3 10 (Sample.world ∅) (Sample.world ∅)).
  - vm_compute. reflexivity.
  - reflexivity.
  - reflexivity.
  - reflexivity.
  - reflexivity.
  - vm_compute. reflexivity.
Defined.


(** X3. An entry that cannot be read counts as no entry: the result of
    [cached_search] is the one it has with the file removed, and when the
    search returns and the write succeeds the file is replaced by the fresh
    entry. *)
Theorem unreadable_entry_is_replaced `{E : Env} (query : string) (n : Z) (w : World) :
  cache_dir w !! cache_file_of query = Some Unreadable ->
  fst (cached_search query n w)
  = fst (cached_search query n
           (set_cache_dir (delete (cache_file_of query) (cache_dir w)) w))
  /\ forall res,
       search_at (tick w) query n = Ret res ->
       dump_at (Datatypes.S (Datatypes.S (tick w))) (cache_file_of query) = DumpOk ->
       fst (cached_search query n w) = Ret res
       /\ cache_dir (snd (cached_search query n w)) !! cache_file_of query
          = Some (Pickled (CacheData (time_at (Datatypes.S (tick w))) res)).
Proof.
  intros Hbad.
  pose proof (cache_get_unreadable _ _ Hbad) as Hget.
  assert (Hget' : cache_get (cache_file_of query)
                    (set_cache_dir (delete (cache_file_of query) (cache_dir w)) w)
                  = (Ret None, set_cache_dir (delete (cache_file_of query) (cache_dir w)) w))
    by (apply cache_get_missing, lookup_delete_eq).
  split.
  - rewrite (cached_search_miss _ _ _ _ Hget), (cached_search_miss _ _ _ _ Hget').
    cbv zeta. cbn [tick set_cache_dir].
    destruct (search_at _ _ _) as [res|e]; [|reflexivity].
    rewrite !cache_put_eq. cbv zeta.
    change (tick (after_call ?c ?x)) with (Datatypes.S (tick x)).
    cbn [tick set_cache_dir].
    destruct (dump_at _ _); reflexivity.
  - intros res Hsearch Hdump.
    rewrite (cached_search_fresh _ _ _ _ _ Hget Hsearch Hdump).
    split; [reflexivity|]. cbn [snd cache_dir next set_tick set_cache_dir].
    apply lookup_insert_eq.
Qed.

Lemma unreadable_entry_is_replaced_witness :
  let E := Sample.env Sample.noon (Ret Sample.hits) (Ret VNone) (Ret VNone) DumpOk true in
  let f := "search_09bca9f5c15d7c8a0fd505fe702e189a.pkl" in
  let w := Sample.world {[ f := Unreadable ]} in
  fst (cached_search "lofi beats" 3 w) = Ret Sample.hits
  /\ cache_dir (snd (cached_search "lofi beats" 3 w)) !! cache_file_of "lofi beats"
     = Some (Pickled (CacheData 1000%float Sample.hits)).
Proof.
  cbv zeta.
  refine (proj2 (@unreadable_entry_is_replaced
                   (Sample.env Sample.noon (Ret Sample.hits) (Ret VNone) (Ret VNone) DumpOk true)
                   "lofi beats" 3
                   (Sample.world {[ "search_09bca9f5c15d7c8a0fd505fe702e189a.pkl" := Unreadable ]})
                   _)
                Sample.hits eq_refl eq_refl).
  vm_compute. reflexivity.
Defined.

(** X4. When there is no valid entry and the search raises, whatever it
    raises, [cached_search] returns [None] and the cache directory is as it
    was: an expired or unreadable file stays in place. *)
Theorem failed_search_keeps_directory `{E : Env} (query : string) (n : Z)
    (w w1 : World) (e : exn) :
  cache_get (cache_file_of query) w = (Ret None, w1) ->
  search_at (tick w1) query n = Raise e ->
  fst (cached_search query n w) = Ret VNone
  /\ cache_dir (snd (cached_search query n w)) = cache_dir w
  /\ calls (snd (cached_search query n w)) = (calls w ++ [CallSearch query n])%list.
Proof.
  intros Hmiss Hsearch.
  rewrite (cached_search_miss _ _ _ _ Hmiss). cbv zeta. rewrite Hsearch.
  destruct (cache_get_world _ _ _ _ Hmiss) as [[->| ->] _]; repeat split; reflexivity.
Qed.

Lemma failed_search_keeps_directory_witness :
  let E := Sample.env Sample.hour_later (Raise KeyboardInterrupt) (Ret VNone) (Ret VNone)
             DumpOk true in
  let w := Sample.at_tick 1 Sample.two_files in
  fst (cached_search "lofi beats" 3 w) = Ret VNone
  /\ cache_dir (snd (cached_search "lofi beats" 3 w)) = cache_dir w
  /\ calls (snd (cached_search "lofi beats" 3 w)) = (calls w ++ [CallSearch "lofi beats" 3])%list.
Proof.
  cbv zeta.
  apply (@failed_search_keeps_directory
           (Sample.env Sample.hour_later (Raise KeyboardInterrupt) (Ret VNone) (Ret VNone)
              DumpOk true)
           "lofi beats" 3 (Sample.at_tick 1 Sample.two_files)
           (next (Sample.at_tick 1 Sample.two_files)) KeyboardInterrupt).
  - vm_compute. reflexivity.
  - reflexivity.
Defined.



(** ** Clearing the cache, lines 169-174 *)

Lemma remove_pkl_keeps_others `{E : Env} (files : list string) (n : string) :
  Text.endswith n ".pkl" = false ->
  forall w, cache_dir (snd (remove_pkl files w)) !! n = cache_dir w !! n.
Proof.
  intros Hn. induction files as [|file rest IH]; intros w; [reflexivity|].
  cbn [remove_pkl]. unfold bind.
  destruct (Text.endswith file ".pkl") eqn:Hfile.
  - unfold os_remove.
    destruct (cache_dir w !! file) eqn:Hlook; [|reflexivity].
    destruct (remove_at (tick w) file); [|reflexivity].
    rewrite IH. cbn [cache_dir next set_tick set_cache_dir].
    apply lookup_delete_ne. intros ->. congruence.
  - cbn. apply IH.
Qed.

Lemma clear_cache_keeps_others `{E : Env} (w : World) (n : string) :
  Text.endswith n ".pkl" = false ->
  cache_dir (snd (clear_cache w)) !! n = cache_dir w !! n.
Proof.
  intros Hn. unfold clear_cache, bind, os_listdir. cbv beta.
  pose proof (remove_pkl_keeps_others ((map_to_list (cache_dir w)).*1) n Hn w) as Hkeep.
  destruct (remove_pkl _ w) as [[[]|e] w1]; exact Hkeep.
Qed.

(** X6. [clear_cache] leaves every file whose name does not end in [.pkl]
    as it was, whether it returns or stops on a file it cannot remove. *)
Theorem clear_cache_keeps_other_files `{E : Env} (w : World) (n : string) :
  Text.endswith n ".pkl" = false ->
  cache_dir (snd (clear_cache w)) !! n = cache_dir w !! n.
Proof. apply clear_cache_keeps_others. Qed.

Lemma clear_cache_keeps_other_files_witness :
  let E := Sample.env Sample.noon (Ret VNone) (Ret VNone) (Ret VNone) DumpOk false in
  cache_dir (snd (clear_cache (Sample.world Sample.two_files))) !! "notes.txt"
  = Some Unreadable.
Proof.
  cbv zeta.
  rewrite (@clear_cache_keeps_other_files
             (Sample.env Sample.noon (Ret VNone) (Ret VNone) (Ret VNone) DumpOk false)
             (Sample.world Sample.two_files) "notes.txt"); reflexivity.
Defined.

Lemma remove_pkl_returns `{E : Env} (files : list string) :
  (forall t n, remove_at t n = true) ->
  NoDup files ->
  forall w, (forall n, n ∈ files -> is_Some (cache_dir w !! n)) ->
    exists w', remove_pkl files w = (Ret tt, w') /\ stdout w' = stdout w.
Proof.
  intros Hrm. induction 1 as [|file rest Hfresh Hnodup IH]; intros w Hpresent.
  - eexists. split; reflexivity.
  - cbn [remove_pkl]. unfold bind.
    assert (Hrest : forall w1, (forall n, cache_dir w1 !! n = cache_dir w !! n \/ n = file) ->
                               forall n, n ∈ rest -> is_Some (cache_dir w1 !! n)).
    { intros w1 Hw1 n Hn. destruct (Hw1 n) as [->| ->].
      - apply Hpresent. now right.
      - contradiction. }
    destruct (Text.endswith file ".pkl").
    + unfold os_remove.
      destruct (Hpresent file) as [x ->]; [now left|]. rewrite Hrm.
      destruct (IH (next (set_cache_dir (delete file (cache_dir w)) w)))
        as (w' & Hrun & Hout).
      { apply Hrest. intros n. cbn [cache_dir next set_tick set_cache_dir].
        destruct (decide (n = file)) as [->|Hne]; [now right|].
        left. now apply lookup_delete_ne. }
      exists w'. split; [exact Hrun | exact Hout].
    + cbn. apply IH. apply Hrest. now left.
Qed.

(** X7. When every removal succeeds, [clear_cache] returns, prints
    "Cache cleared" once, and the directory it leaves holds exactly the
    files whose name does not end in [.pkl]. *)
Theorem clear_cache_succeeds `{E : Env} (w : World) :
  (forall t n, remove_at t n = true) ->
  exists w',
    clear_cache w = (Ret tt, w')
    /\ stdout w' = (stdout w ++ [MsgCacheCleared])%list
    /\ forall n, cache_dir w' !! n
                 = if Text.endswith n ".pkl" then None else cache_dir w !! n.
Proof.
  intros Hrm.
  destruct (remove_pkl_returns ((map_to_list (cache_dir w)).*1) Hrm
              (NoDup_fst_map_to_list _) w) as (w1 & Hrun & Hout).
  { intros n Hn. apply list_elem_of_fmap in Hn as ([n' x] & -> & Hin).
    apply elem_of_map_to_list in Hin. now exists x. }
  assert (Hclear : clear_cache w = (Ret tt, set_stdout (stdout w1 ++ [MsgCacheCleared]) w1)).
  { unfold clear_cache, bind, os_listdir. cbv beta. now rewrite Hrun. }
  eexists. split; [exact Hclear|]. split; [cbn; now rewrite Hout|].
  intros n. destruct (Text.endswith n ".pkl") eqn:Hn.
  - eapply clear_cache_removes; [exact Hclear | exact Hn].
  - pose proof (clear_cache_keeps_others w n Hn) as Hkeep.
    now rewrite Hclear in Hkeep.
Qed.

Lemma clear_cache_succeeds_witness :
  let E := Sample.env Sample.noon (Ret VNone) (Ret VNone) (Ret VNone) DumpOk true in
  exists w',
    clear_cache (Sample.world Sample.two_files) = (Ret tt, w')
    /\ stdout w' = [MsgCacheCleared]
    /\ forall n, cache_dir w' !! n
                 = if Text.endswith n ".pkl" then None else Sample.two_files !! n.
Proof.
  cbv zeta.
  apply (@clear_cache_succeeds
           (Sample.env Sample.noon (Ret VNone) (Ret VNone) (Ret VNone) DumpOk true)
           (Sample.world Sample.two_files)).
  reflexivity.
Defined.

Lemma remove_pkl_quiet `{E : Env} (files : list string) :
  untouched (fun w => (calls w, commands (player w), stdout w)) (remove_pkl files).
Proof.
  induction files as [|file rest IH]; cbn [remove_pkl]; [apply untouched_ret|].
  apply untouched_bind; [|intros _; exact IH].
  destruct (Text.endswith file ".pkl"); [|apply untouched_ret].
  intros w. unfold os_remove. destruct (cache_dir w !! file); [|reflexivity].
  destruct (remove_at _ _); reflexivity.
Qed.

Lemma remove_pkl_raises `{E : Env} (files : list string) :
  forall w e w', remove_pkl files w = (Raise e, w') -> e = OSError.
Proof.
  induction files as [|file rest IH]; intros w e w'; [discriminate|].
  cbn [remove_pkl]. unfold bind.
  destruct (Text.endswith file ".pkl").
  - unfold os_remove. destruct (cache_dir w !! file).
    + destruct (remove_at (tick w) file); [apply IH | now intros [= <- _]].
    + now intros [= <- _].
  - cbn. apply IH.
Qed.

Lemma clear_cache_raise `{E : Env} (w : World) (e : exn) (w' : World) :
  clear_cache w = (Raise e, w') ->
  e = OSError
  /\ (calls w', commands (player w'), stdout w') = (calls w, commands (player w), stdout w).
Proof.
  unfold clear_cache, bind, os_listdir. cbv beta.
  pose proof (remove_pkl_quiet ((map_to_list (cache_dir w)).*1) w) as Hquiet.
  destruct (remove_pkl _ w) as [[[]|e0] w1] eqn:Hrun; [discriminate|].
  intros [= <- <-]. split; [eapply remove_pkl_raises, Hrun | exact Hquiet].
Qed.

(** X8. When a removal fails, [clear_cache] raises the error of the file
    system and "Cache cleared" is not printed: nothing at all is printed. *)
Theorem clear_cache_failure_prints_nothing `{E : Env} (w : World) (e : exn) (w' : World) :
  clear_cache w = (Raise e, w') -> e = OSError /\ stdout w' = stdout w.
Proof.
  intros Hclear. apply clear_cache_raise in Hclear as [-> [= _ _ Hout]]. now split.
Qed.

Lemma clear_cache_failure_prints_nothing_witness :
  let E := Sample.env Sample.noon (Ret VNone) (Ret VNone) (Ret VNone) DumpOk false in
  fst (clear_cache (Sample.world Sample.two_files)) = Raise OSError
  /\ stdout (snd (clear_cache (Sample.world Sample.two_files))) = [].
Proof.
  cbv zeta.
  destruct (@clear_cache_failure_prints_nothing
              (Sample.env Sample.noon (Ret VNone) (Ret VNone) (Ret VNone) DumpOk false)
              (Sample.world Sample.two_files) OSError
              (snd (@clear_cache
                      (Sample.env Sample.noon (Ret VNone) (Ret VNone) (Ret VNone) DumpOk false)
                      (Sample.world Sample.two_files)))) as [_ Hout].
  - vm_compute. reflexivity.
  - split; [vm_compute; reflexivity | exact Hout].
Defined.

(** ** Extraction and the resolvers, lines 77-159 *)

(** X9. Extraction raises nothing and touches nothing but yt-dlp, which it
    calls once: whatever yt-dlp answers it returns a value, and when yt-dlp
    raises, a [KeyboardInterrupt] included, that value is the address of
    the video page. *)
Theorem extraction_is_contained `{E : Env} (video_id : pyval) (w : World) :
  exists u,
    extract_audio_url_async video_id w
    = (Ret u, after_call (CallExtractInfo ydl_opts_async (page_url video_id)) w)
    /\ (forall e, extract_info_at (tick w) ydl_opts_async (page_url video_id) = Raise e ->
                  u = VStr (page_url video_id)).
Proof.
  rewrite extract_audio_url_async_eq. eexists. split; [reflexivity|].
  intros e He. now rewrite He.
Qed.

(** X10. A format whose [acodec] is [None] at the head of the list defeats
    the selection: [None != 'none'] keeps it among the audio formats, the
    test ['opus' in None] raises, and extraction returns the address of the
    video page whatever the other formats are. *)
Theorem none_codec_defeats_selection `{E : Env} (video_id : pyval) (w : World)
    (d d0 : list (string * pyval)) (rest : list pyval) :
  extract_info_at (tick w) ydl_opts_async (page_url video_id) = Ret (VDict d) ->
  Py.lookup d "formats" = Some (VList (VDict d0 :: rest)) ->
  Py.lookup d0 "acodec" = Some VNone ->
  fst (extract_audio_url_async video_id w) = Ret (VStr (page_url video_id)).
Proof.
  intros Hinfo Hformats Hcodec. rewrite extract_audio_url_async_eq, Hinfo.
  unfold select_url. cbn [Py.get obind]. rewrite Hformats.
  cbn [obind Py.iter audio_formats_of Py.get]. rewrite Hcodec.
  cbn [obind Py.ne_str].
  destruct (audio_formats_of rest) as [others|e]; [|reflexivity].
  cbn [obind first_opus Py.get]. rewrite Hcodec. reflexivity.
Qed.

Lemma none_codec_defeats_selection_witness :
  let E := Sample.env Sample.noon (Ret VNone)
             (Ret (Sample.info_dict [VDict [("acodec", VNone); ("url", VStr "https://cdn/x")];
                                     Sample.format_dict "opus" "https://cdn/a"]))
             (Ret VNone) DumpOk true in
  fst (extract_audio_url_async (VStr "abc") (Sample.world ∅))
  = Ret (VStr "https://youtu.be/abc").
Proof.
  cbv zeta.
  apply (@none_codec_defeats_selection
           (Sample.env Sample.noon (Ret VNone)
              (Ret (Sample.info_dict [VDict [("acodec", VNone); ("url", VStr "https://cdn/x")];
                                      Sample.format_dict "opus" "https://cdn/a"]))
              (Ret VNone) DumpOk true)
           (VStr "abc") (Sample.world ∅) _ [("acodec", VNone); ("url", VStr "https://cdn/x")]
           _ eq_refl eq_refl eq_refl).
Defined.

(** X11. A format without an [acodec] field counts as audio-capable and
    never as opus: at the head of the list, before formats that carry a
    codec and a URL, it is the one returned unless one of those names
    opus. *)
Theorem format_without_codec_is_audio `{E : Env} (video_id : pyval) (w : World)
    (d d0 : list (string * pyval)) (rest : list pyval) (u : pyval)
    (fmts : list Spec.format) :
  extract_info_at (tick w) ydl_opts_async (page_url video_id) = Ret (VDict d) ->
  Py.lookup d "formats" = Some (VList (VDict d0 :: rest)) ->
  Py.lookup d0 "acodec" = None ->
  Py.lookup d0 "url" = Some u ->
  Forall2 Spec.represents rest fmts ->
  fst (extract_audio_url_async video_id w)
  = Ret match List.find (fun f => Text.contains "opus" (Spec.codec f))
                (List.filter (fun f => negb (String.eqb (Spec.codec f) "none")) fmts) with
        | Some f => VStr (Spec.url f)
        | None => u
        end.
Proof.
  intros Hinfo Hformats Hcodec Hurl Hrest. rewrite extract_audio_url_async_eq, Hinfo.
  unfold select_url. cbn [Py.get obind]. rewrite Hformats.
  cbn [obind Py.iter audio_formats_of Py.get]. rewrite Hcodec.
  destruct (audio_formats_of_represented _ _ Hrest) as (audio & -> & Haudio).
  cbn [obind Py.ne_str first_opus Py.get]. rewrite Hcodec.
  cbn [obind Py.contains]. change (Text.contains "opus" "") with false. cbv iota.
  rewrite (first_opus_represented _ _ Haudio).
  destruct (List.find _ _); cbn [obind option_map]; [reflexivity|].
  cbn [Py.truthy Py.first obind Py.getitem]. now rewrite Hurl.
Qed.

Lemma format_without_codec_is_audio_witness :
  let E := Sample.env Sample.noon (Ret VNone)
             (Ret (Sample.info_dict [VDict [("vcodec", VStr "vp9"); ("url", VStr "https://cdn/v")];
                                     Sample.format_dict "mp4a.40.2" "https://cdn/b"]))
             (Ret VNone) DumpOk true in
  fst (extract_audio_url_async (VStr "abc") (Sample.world ∅)) = Ret (VStr "https://cdn/v").
Proof.
  cbv zeta.
  apply (@format_without_codec_is_audio
           (Sample.env Sample.noon (Ret VNone)
              (Ret (Sample.info_dict [VDict [("vcodec", VStr "vp9"); ("url", VStr "https://cdn/v")];
                                      Sample.format_dict "mp4a.40.2" "https://cdn/b"]))
              (Ret VNone) DumpOk true)
           (VStr "abc") (Sample.world ∅) _ [("vcodec", VStr "vp9"); ("url", VStr "https://cdn/v")]
           _ (VStr "https://cdn/v") [Spec.Format "mp4a.40.2" "https://cdn/b"]
           eq_refl eq_refl eq_refl eq_refl).
  repeat constructor. eexists. split; [reflexivity|split; reflexivity].
Defined.

Lemma youtube_search_first_original_world `{E : Env} (query : string) (w : World) :
  snd (youtube_search_first_original query w)
  = after_call (CallExtractInfo ydl_opts_original query) w.
Proof.
  unfold youtube_search_first_original, bind, extract_info, lift, ret.
  destruct (extract_info_at _ _ _) as [info|e]; [|reflexivity].
  destruct (Py.getitem info "entries") as [entries|e]; [|reflexivity].
  destruct (Py.first entries) as [video|e]; [|reflexivity].
  destruct (Py.getitem video "url"); [|reflexivity].
  destruct (Py.getitem video "title"); reflexivity.
Qed.


(** X13. A valid cache entry whose results are empty ([[]] or [None]) sends
    the fast resolver straight to the direct resolver: yt_search is not
    asked again while the entry is younger than 3600 s. *)
Theorem cached_empty_results_skip_search `{E : Env} (query : string) (w : World)
    (d : cache_data) :
  cache_dir w !! cache_file_of query = Some (Pickled d) ->
  PrimFloat.ltb (PrimFloat.sub (time_at (tick w)) (timestamp d)) 3600%float = true ->
  Py.truthy (results d) = false ->
  youtube_search_first_fast query w = youtube_search_first_original query (next w)
  /\ calls (snd (youtube_search_first_fast query w))
     = (calls w ++ [CallExtractInfo ydl_opts_original query])%list.
Proof.
  intros Hentry Hage Hempty.
  assert (Hfast : youtube_search_first_fast query w
                  = youtube_search_first_original query (next w)).
  { apply (fast_without_results _ _ _ (results d)); [|exact Hempty].
    apply cached_search_hit. now rewrite cache_get_eq, Hentry, Hage. }
  split; [exact Hfast|]. now rewrite Hfast, youtube_search_first_original_world.
Qed.

Lemma cached_empty_results_skip_search_witness :
  let E := Sample.env Sample.noon (Ret Sample.hits) (Ret VNone) (Ret Sample.direct_info)
             DumpOk true in
  let w := Sample.world
             {[ "search_09bca9f5c15d7c8a0fd505fe702e189a.pkl"
                := Pickled (CacheData 1000%float (VList [])) ]} in
  fst (youtube_search_first_fast "lofi beats" w)
  = Ret (VStr "https://direct/1", VStr "Direct Title")
  /\ calls (snd (youtube_search_first_fast "lofi beats" w))
     = [CallExtractInfo ydl_opts_original "lofi beats"].
Proof.
  cbv zeta.
  destruct (@cached_empty_results_skip_search
              (Sample.env Sample.noon (Ret Sample.hits) (Ret VNone) (Ret Sample.direct_info)
                 DumpOk true)
              "lofi beats"
              (Sample.world
                 {[ "search_09bca9f5c15d7c8a0fd505fe702e189a.pkl"
                    := Pickled (CacheData 1000%float (VList [])) ]})
              (CacheData 1000%float (VList []))) as [Hfast Hcalls].
  - vm_compute. reflexivity.
  - reflexivity.
  - reflexivity.
  - rewrite Hcalls, Hfast. split; reflexivity.
Defined.

(** ** The command loop, lines 188-258 *)

Create HintDb frame.

Section Controls.
Context {E : Env}.

Ltac by_cases :=
  intros w;
  repeat match goal with
         | |- context [match ?x with _ => _ end] => destruct x
         end;
  reflexivity.

Lemma controls_time_time : untouched controls time_time.
Proof. by_cases. Qed.

Lemma controls_search q n : untouched controls (search q n).
Proof. by_cases. Qed.

Lemma controls_extract_info o u : untouched controls (extract_info o u).
Proof. by_cases. Qed.

Lemma controls_os_path_exists f : untouched controls (os_path_exists f).
Proof. by_cases. Qed.

Lemma controls_pickle_load f : untouched controls (pickle_load f).
Proof. by_cases. Qed.

Lemma controls_pickle_dump f d : untouched controls (pickle_dump f d).
Proof. intros w. unfold pickle_dump. destruct (dump_at _ _); reflexivity. Qed.

Lemma controls_os_listdir : untouched controls os_listdir.
Proof. by_cases. Qed.

Lemma controls_os_remove f : untouched controls (os_remove f).
Proof.
  intros w. unfold os_remove. destruct (cache_dir w !! f); [|reflexivity].
  destruct (remove_at _ _); reflexivity.
Qed.

Lemma controls_print msg : untouched controls (print msg).
Proof. by_cases. Qed.

Lemma controls_player_command c : untouched controls (player_command c).
Proof. by_cases. Qed.

Lemma controls_start_status_monitor : untouched controls start_status_monitor.
Proof. by_cases. Qed.

Hint Resolve untouched_ret untouched_raise untouched_lift controls_time_time
  controls_search controls_extract_info controls_os_path_exists controls_pickle_load
  controls_pickle_dump controls_os_listdir controls_os_remove controls_print
  controls_player_command controls_start_status_monitor : frame.

Ltac frame :=
  repeat (intros; cbv beta zeta;
          lazymatch goal with
          | |- untouched _ (bind _ _) => apply untouched_bind
          | |- untouched _ (try_except _ _) => apply untouched_try_except
          | |- untouched _ (match ?x with _ => _ end) => destruct x
          | |- untouched _ _ => solve [auto with frame]
          end).

Lemma controls_cached_search q n : untouched controls (cached_search q n).
Proof. unfold cached_search, cache_get, cache_put. frame. Qed.

Lemma controls_extract_audio_url_async v : untouched controls (extract_audio_url_async v).
Proof. unfold extract_audio_url_async. frame. Qed.

Lemma controls_original q : untouched controls (youtube_search_first_original q).
Proof. unfold youtube_search_first_original. frame. Qed.

Hint Resolve controls_cached_search controls_extract_audio_url_async controls_original
  : frame.

Lemma controls_fast q : untouched controls (youtube_search_first_fast q).
Proof. unfold youtube_search_first_fast. frame. Qed.

Hint Resolve controls_fast : frame.

Lemma controls_play_youtube q b : untouched controls (play_youtube q b).
Proof. unfold play_youtube. frame. Qed.

Lemma controls_remove_pkl files : untouched controls (remove_pkl files).
Proof. induction files as [|file rest IH]; cbn [remove_pkl]; frame. Qed.

Hint Resolve controls_play_youtube controls_remove_pkl : frame.

Lemma controls_clear_cache : untouched controls clear_cache.
Proof. unfold clear_cache. frame. Qed.

Hint Resolve controls_clear_cache : frame.

Lemma range_of_controls {A} (m : M A) :
  untouched controls m -> keeps volume_in_range m.
Proof.
  intros Hm w Hw. specialize (Hm w). unfold controls in Hm.
  unfold volume_in_range. injection Hm as Hvol _ _ _. now rewrite Hvol.
Qed.

Lemma range_bind {A B} (m : M A) (k : A -> M B) :
  keeps volume_in_range m -> (forall a, keeps volume_in_range (k a)) ->
  keeps volume_in_range (bind m k).
Proof.
  intros Hm Hk w Hw. unfold bind. specialize (Hm w Hw).
  destruct (m w) as [[a|e] w1]; cbn [snd] in *; [|exact Hm].
  now apply Hk.
Qed.

Lemma range_try_except {A} (m : M A) (h : exn -> M A) :
  keeps volume_in_range m -> (forall e, keeps volume_in_range (h e)) ->
  keeps volume_in_range (try_except m h).
Proof.
  intros Hm Hh w Hw. unfold try_except. specialize (Hm w Hw).
  destruct (m w) as [[a|e] w1]; cbn [snd] in *; [exact Hm|].
  now apply Hh.
Qed.

Lemma range_volume_command cmd : keeps volume_in_range (volume_command cmd).
Proof.
  intros w Hw. unfold volume_command, try_except, bind, lift.
  destruct (nth_error _ 1) as [token|]; [|exact Hw].
  destruct (Text.parse_int token) as [vol|]; [|exact Hw].
  destruct ((0 <=? vol) && (vol <=? 100)) eqn:Hvol; [|exact Hw].
  apply andb_true_iff in Hvol as [Hlo Hhi].
  apply Z.leb_le in Hlo, Hhi. cbn. unfold volume_in_range. cbn. lia.
Qed.

Ltac ranged :=
  repeat (intros; cbv beta zeta;
          lazymatch goal with
          | |- keeps _ (bind _ _) => apply range_bind
          | |- keeps _ (try_except _ _) => apply range_try_except
          | |- keeps _ (match ?x with _ => _ end) => destruct x
          | |- keeps _ _ =>
              first [ apply range_volume_command
                    | solve [apply range_of_controls; auto with frame]
                    | solve [intros w Hw; exact Hw] ]
          end).

Lemma range_run_command cmd st : keeps volume_in_range (run_command cmd st).
Proof. unfold run_command, show_help. ranged. Qed.

Lemma range_loop_iteration ev st : keeps volume_in_range (loop_iteration ev st).
Proof.
  unfold loop_iteration, with_handlers, loop_body, on_exception, on_interrupt.
  destruct ev; ranged; apply range_run_command.
Qed.

Lemma range_main_loop events : forall st, keeps volume_in_range (main_loop events st).
Proof.
  induction events as [|ev rest IH]; intros st; cbn [main_loop].
  - intros w Hw. exact Hw.
  - apply range_bind; [apply range_loop_iteration|].
    intros [[] st']; cbn [fst snd]; [apply IH | intros w Hw; exact Hw].
Qed.

End Controls.

(** X14. Resolving and playing a query, in either mode and whatever the
    collaborators do, leaves the volume, the pause state, the termination
    flag of the player and the executor as they were. *)
Theorem play_youtube_keeps_controls `{E : Env} (query : string) (use_cache : bool)
    (w : World) :
  controls (snd (play_youtube query use_cache w)) = controls w.
Proof. apply controls_play_youtube. Qed.

(** X15. The volume stays within 0..100 through the whole command loop:
    whatever lines are typed and whatever the collaborators do, a volume
    that starts in range is in range after every turn. *)
Theorem main_loop_keeps_volume_in_range `{E : Env} (events : list input_event)
    (st : loop_state) (w : World) :
  volume_in_range w -> volume_in_range (snd (main_loop events st w)).
Proof. apply range_main_loop. Qed.

Lemma main_loop_keeps_volume_in_range_witness :
  let E := Sample.env Sample.noon (Ret Sample.hits) (Ret VNone) (Ret Sample.direct_info)
             DumpOk true in
  volume_in_range
    (snd (main_loop [Line "/volume 150"; Line "/volume 40"; Line "lofi beats"; Line "/volume -1"]
            (LoopState true None) (Sample.world ∅))).
Proof.
  cbv zeta.
  apply (@main_loop_keeps_volume_in_range
           (Sample.env Sample.noon (Ret Sample.hits) (Ret VNone) (Ret Sample.direct_info)
              DumpOk true)).
  unfold volume_in_range. cbn. lia.
Defined.

Example volume_after_commands :
  let E := Sample.env Sample.noon (Ret Sample.hits) (Ret VNone) (Ret Sample.direct_info)
             DumpOk true in
  volume (player (snd (main_loop [Line "/volume 150"; Line "/volume 40"; Line "/volume -1"]
                         (LoopState true None) (Sample.world ∅)))) = 40.
Proof. vm_compute. reflexivity. Qed.







(** X17. At the end of input the loop does not stop.  Before any query was
    typed it prints the error and "try another search"; after one, it sends
    the last query to the direct resolver again and loads what that
    returns. *)
Theorem end_of_input_keeps_the_loop_running `{E : Env} (st : loop_state) (w : World) :
  let w0 := set_stdout (stdout w ++ [MsgError EOFError]) w in
  (q st = None ->
   loop_iteration EndOfInput st w
   = (Ret (Continue, st), set_stdout (stdout w0 ++ [MsgTryAnother]) w0))
  /\ (forall query url title w1,
        q st = Some query ->
        youtube_search_first_original query w0 = (Ret (url, title), w1) ->
        exists w2,
          loop_iteration EndOfInput st w = (Ret (Continue, st), w2)
          /\ commands (player w2) = (commands (player w1) ++ [Loadfile url "replace"])%list
          /\ stdout w2 = (stdout w1 ++ [MsgPlayingFallback title])%list).
Proof.
  cbv zeta. split.
  - intros Hq. unfold loop_iteration, with_handlers, try_except, raise.
    cbn [is_Exception]. unfold on_exception, bind, try_except, print, raise.
    now rewrite Hq.
  - intros query url title w1 Hq Hdirect.
    unfold loop_iteration, with_handlers, try_except, raise.
    cbn [is_Exception]. unfold on_exception, bind, try_except, print.
    rewrite Hq, Hdirect. eexists. split; [reflexivity|]. split; reflexivity.
Qed.

Lemma end_of_input_keeps_the_loop_running_witness :
  let E := Sample.env Sample.noon (Ret VNone) (Ret VNone) (Ret Sample.direct_info)
             DumpOk true in
  exists w2,
    loop_iteration EndOfInput (LoopState true (Some "lofi beats")) (Sample.world ∅)
    = (Ret (Continue, LoopState true (Some "lofi beats")), w2)
    /\ commands (player w2) = [Loadfile (VStr "https://direct/1") "replace"]
    /\ stdout w2 = [MsgError EOFError; MsgPlayingFallback (VStr "Direct Title")].
Proof.
  cbv zeta.
  destruct (proj2 (@end_of_input_keeps_the_loop_running
                     (Sample.env Sample.noon (Ret VNone) (Ret VNone) (Ret Sample.direct_info)
                        DumpOk true)
                     (LoopState true (Some "lofi beats")) (Sample.world ∅))
              "lofi beats" (VStr "https://direct/1") (VStr "Direct Title") _
              eq_refl eq_refl) as (w2 & Hrun & Hcmd & Hout).
  exists w2. split; [exact Hrun|]. split; [exact Hcmd | exact Hout].
Defined.



(** X19. When [/cache] fails on a file it cannot remove, the handler of the
    loop takes the typed command for a query: it prints the error, sends
    the text of the command to the direct resolver and loads what that
    returns into the player. *)
Theorem failed_cache_clear_searches_for_the_command `{E : Env} (line query : string)
    (st : loop_state) (w w1 : World) (e : exn) :
  Text.strip line = query ->
  Text.startswith query "/" = true ->
  py_lower query = "/cache" ->
  clear_cache w = (Raise e, w1) ->
  let w2 := set_stdout (stdout w1 ++ [MsgError e]) w1 in
  forall url title w3,
    youtube_search_first_original query w2 = (Ret (url, title), w3) ->
    exists w4,
      loop_iteration (Line line) st w
      = (Ret (Continue, LoopState (fast_mode st) (Some query)), w4)
      /\ calls w4 = (calls w ++ [CallExtractInfo ydl_opts_original query])%list
      /\ commands (player w4) = (commands (player w) ++ [Loadfile url "replace"])%list
      /\ stdout w4 = (stdout w ++ [MsgError e; MsgPlayingFallback title])%list.
Proof.
  intros Hstrip Hslash Hlower Hclear. cbv zeta. intros url title w3 Hdirect.
  destruct (clear_cache_raise _ _ _ Hclear) as [-> [= Hcalls Hcmds Hout]].
  assert (Hnonempty : String.eqb query "" = false)
    by (destruct query; [discriminate | reflexivity]).
  assert (Hbody : loop_body query (LoopState (fast_mode st) (Some query)) w
                  = (Raise OSError, w1)).
  { unfold loop_body. rewrite Hnonempty, Hslash, Hlower. unfold run_command.
    cbn [String.eqb Ascii.eqb Bool.eqb orb Text.startswith String.prefix].
    unfold bind. now rewrite Hclear. }
  pose proof (youtube_search_first_original_world query
                (set_stdout (stdout w1 ++ [MsgError OSError]) w1)) as Hw3.
  rewrite Hdirect in Hw3. cbn [snd] in Hw3.
  unfold loop_iteration, with_handlers, try_except. rewrite Hstrip, Hbody.
  cbn [is_Exception]. unfold on_exception, bind, try_except, print. cbn [q].
  rewrite Hdirect. eexists. split; [reflexivity|].
  subst w3. cbn. rewrite Hcalls, Hcmds, Hout, <- !app_assoc. repeat split; reflexivity.
Qed.

Lemma failed_cache_clear_searches_for_the_command_witness :
  let E := Sample.env Sample.noon (Ret VNone) (Ret VNone) (Ret Sample.direct_info)
             DumpOk false in
  exists w4,
    loop_iteration (Line "/Cache") (LoopState true None) (Sample.world Sample.two_files)
    = (Ret (Continue, LoopState true (Some "/Cache")), w4)
    /\ calls w4 = [CallExtractInfo ydl_opts_original "/Cache"]
    /\ commands (player w4) = [Loadfile (VStr "https://direct/1") "replace"]
    /\ stdout w4 = [MsgError OSError; MsgPlayingFallback (VStr "Direct Title")].
Proof.
  cbv zeta.
  set (E := Sample.env Sample.noon (Ret VNone) (Ret VNone) (Ret Sample.direct_info)
              DumpOk false).
  set (w := Sample.world Sample.two_files).
  assert (Hclear : @clear_cache E w = (Raise OSError, snd (@clear_cache E w)))
    by (vm_compute; reflexivity).
  destruct (@failed_cache_clear_searches_for_the_command E "/Cache" "/Cache"
              (LoopState true None) w _ OSError eq_refl eq_refl eq_refl Hclear
              (VStr "https://direct/1") (VStr "Direct Title") _ eq_refl)
    as (w4 & Hrun & Hcalls & Hcmds & Hout).
  exists w4. split; [exact Hrun|]. split; [exact Hcalls|]. split; [exact Hcmds | exact Hout].
Defined.







(** ** The cache key on ASCII text, lines 41-42 *)

Lemma lower_char_ascii (c : ascii) :
  Text.is_ascii c = true ->
  Text.is_ascii (Text.lower_char c) = true
  /\ Text.lower_char (Text.lower_char c) = Text.lower_char c.
Proof. destruct c as [[] [] [] [] [] [] [] []]; intros H; (discriminate || (split; reflexivity)). Qed.

Lemma lower_ascii (s : string) :
  Text.all_ascii s = true ->
  Text.all_ascii (Text.map_chars Text.lower_char s) = true
  /\ Text.map_chars Text.lower_char (Text.map_chars Text.lower_char s)
     = Text.map_chars Text.lower_char s.
Proof.
  induction s as [|c s IH]; [split; reflexivity|].
  cbn [Text.all_ascii Text.map_chars]. intros H.
  apply andb_true_iff in H as [Hc Hs].
  destruct (lower_char_ascii c Hc) as [Hc1 Hc2], (IH Hs) as [Hs1 Hs2].
  split; [now rewrite Hc1, Hs1 | now rewrite Hc2, Hs2].
Qed.

(** X22. On ASCII text lower-casing is idempotent, so a query and its
    lower-cased form have the same cache key and the same cache file. *)
Theorem lowered_query_shares_the_entry `{E : Env} (query : string) :
  Text.all_ascii query = true ->
  py_lower (py_lower query) = py_lower query
  /\ get_cache_key (py_lower query) = get_cache_key query
  /\ cache_file_of (py_lower query) = cache_file_of query.
Proof.
  intros Hascii.
  assert (Hidem : py_lower (py_lower query) = py_lower query).
  { unfold py_lower. rewrite Hascii.
    destruct (lower_ascii query Hascii) as [-> ->]. reflexivity. }
  split; [exact Hidem|].
  unfold cache_file_of, get_cache_key. now rewrite Hidem.
Qed.

Lemma lowered_query_shares_the_entry_witness :
  let E := Sample.env Sample.noon (Ret VNone) (Ret VNone) (Ret VNone) DumpOk true in
  py_lower (py_lower "LoFi Beats") = py_lower "LoFi Beats"
  /\ get_cache_key (py_lower "LoFi Beats") = get_cache_key "LoFi Beats"
  /\ cache_file_of (py_lower "LoFi Beats") = cache_file_of "LoFi Beats".
Proof.
  cbv zeta.
  apply (@lowered_query_shares_the_entry
           (Sample.env Sample.noon (Ret VNone) (Ret VNone) (Ret VNone) DumpOk true)
           "LoFi Beats").
  reflexivity.
Defined.
